(** * The authentication facade and query-client configuration

    A shallow embedding of [lib/auth] ([getUserQueryOptions], [useUser],
    [useLogin], [useLogout], [loginInputSchema], [registerInputSchema]) and
    of the two query-client configurations ([queryConfig],
    [createQueryClient]).

    The source is glue over three libraries.  Each library is embedded by
    the part of its run-time behaviour the glue relies on:
    - zod: parsers with the three statuses of zod's [ParseStatus]
      (valid, dirty, aborted);
    - TanStack Query: the query cache as a finite map from query keys to
      query states, the fetch decision of a query observer at mount and in
      a re-render, the re-raising of a stored error under [throwOnError],
      and a mutation with its success handler;
    - next-auth and the HTTP client: an environment that answers each call
      with a settled promise.

    JavaScript strings are [string]; one character stands for one UTF-16
    code unit, so [String.length] is the [.length] of the source. *)

From stdpp Require Import gmap strings list fin_maps.
From Stdlib Require Import ZArith Ascii.

Local Open Scope string_scope.
Local Open Scope list_scope.

(** ** JavaScript values *)

(** The values a form field or a parsed field can hold. *)
Inductive Value : Type :=
| VUndefined
| VNull
| VBool (b : bool)
| VNum (n : Z)
| VStr (s : string).

Global Instance Value_eq_dec : EqDecision Value.
Proof. solve_decision. Defined.

(** What is handed to a schema: a scalar, or a plain object of fields. *)
Inductive Data : Type :=
| Scalar (v : Value)
| Object (fields : gmap string Value).

(** [o[key]]: a missing key reads as [undefined]. *)
Definition get (fields : gmap string Value) (key : string) : Value :=
  default VUndefined (fields !! key).

(** [x === null || x === undefined]. *)
Definition nullish (v : Value) : bool :=
  match v with
  | VUndefined | VNull => true
  | _ => false
  end.

(** A string of at least [n] code units. *)
Definition minLength (n : nat) (v : Value) : bool :=
  match v with
  | VStr s => bool_decide (n ≤ String.length s)%nat
  | _ => false
  end.

Definition nonEmptyString (v : Value) : bool := minLength 1 v.

(** ** zod *)

Module Zod.

(** The outcome of [_parse]: [OK] is status "valid", [DIRTY] carries a value
    with at least one failed refinement, [INVALID] is status "aborted".
    Issue lists are not kept: acceptance is decided by the status alone. *)
Inductive ParseReturn (A : Type) : Type :=
| OK (a : A)
| DIRTY (a : A)
| INVALID.
Arguments OK {A} a.
Arguments DIRTY {A} a.
Arguments INVALID {A}.

Definition isValid {A} (r : ParseReturn A) : bool :=
  match r with OK _ => true | _ => false end.

Definition isDirty {A} (r : ParseReturn A) : bool :=
  match r with DIRTY _ => true | _ => false end.

(** [status.dirty()]: a valid value is downgraded, the rest is kept. *)
Definition dirty {A} (r : ParseReturn A) : ParseReturn A :=
  match r with
  | OK a => DIRTY a
  | r => r
  end.

(** [safeParse]: success exactly when the status is "valid". *)
Inductive SafeParseReturn (A : Type) : Type :=
| Success (data : A)
| Failure.
Arguments Success {A} data.
Arguments Failure {A}.

Definition safeParse {A B} (schema : A → ParseReturn B) (input : A)
  : SafeParseReturn B :=
  match schema input with
  | OK b => Success b
  | _ => Failure
  end.

Definition FieldSchema : Type := Value → ParseReturn Value.
Definition Schema : Type := Data → ParseReturn Data.

(** The checks chained on [z.string()], each with its message. *)
Inductive StringCheck : Type :=
| Min (value : nat) (message : string)
| Email (message : string).

Section Strings.

(** zod's e-mail format test (a regular expression of the library). *)
Variable emailFormat : string → bool.

Definition checkPasses (s : string) (c : StringCheck) : bool :=
  match c with
  | Min n _ => negb (bool_decide (String.length s < n)%nat)
  | Email _ => emailFormat s
  end.

(** [ZodString._parse]: a non-string aborts; a failed check only marks the
    result dirty and the remaining checks still run. *)
Definition z_string (checks : list StringCheck) : FieldSchema :=
  λ input,
    match input with
    | VStr s =>
        foldl (λ r c, if checkPasses s c then r else dirty r) (OK (VStr s)) checks
    | _ => INVALID
    end.

End Strings.

(** [z.null()]. *)
Definition z_null : FieldSchema :=
  λ input,
    match input with
    | VNull => OK VNull
    | _ => INVALID
    end.

(** [.default(v)]: [undefined] is replaced before the inner type parses. *)
Definition z_default (inner : FieldSchema) (defaultValue : Value) : FieldSchema :=
  λ input,
    match input with
    | VUndefined => inner defaultValue
    | _ => inner input
    end.

(** [ParseStatus.mergeObjectSync] over the parsed (key, value, alwaysSet)
    triples: an aborted value aborts the object, a dirty one marks it, and a
    key is written when its value is defined or the key was in the input. *)
Fixpoint mergeObjectSync (pairs : list (string * ParseReturn Value * bool))
  : ParseReturn (gmap string Value) :=
  match pairs with
  | [] => OK ∅
  | (key, r, alwaysSet) :: rest =>
      match r with
      | INVALID => INVALID
      | OK v | DIRTY v =>
          let set (o : gmap string Value) :=
            if negb (bool_decide (v = VUndefined)) || alwaysSet
            then <[key := v]> o else o in
          match mergeObjectSync rest with
          | INVALID => INVALID
          | OK o => if isDirty r then DIRTY (set o) else OK (set o)
          | DIRTY o => DIRTY (set o)
          end
      end
  end.

(** [z.object(shape)] in its default "strip" mode: keys outside the shape
    are neither checked nor copied. *)
Definition z_object (shape : list (string * FieldSchema)) : Schema :=
  λ input,
    match input with
    | Scalar _ => INVALID
    | Object data =>
        let pairs :=
          (λ '(key, validator),
             (key, validator (get data key), bool_decide (is_Some (data !! key))))
            <$> shape in
        match mergeObjectSync pairs with
        | OK o => OK (Object o)
        | DIRTY o => DIRTY (Object o)
        | INVALID => INVALID
        end
    end.

(** [mergeValues]: identical scalars merge; two objects merge to
    [{...a, ...b}] when every shared key holds identical values. *)
Definition mergeValues (a b : Data) : option Data :=
  match a, b with
  | Scalar x, Scalar y => if decide (x = y) then Some (Scalar x) else None
  | Object x, Object y =>
      if decide (map_agree x y) then Some (Object (y ∪ x)) else None
  | _, _ => None
  end.

(** [left.and(right)]: both sides parse the same input. *)
Definition z_and (left right : Schema) : Schema :=
  λ input,
    let parsedLeft := left input in
    let parsedRight := right input in
    match parsedLeft, parsedRight with
    | INVALID, _ | _, INVALID => INVALID
    | (OK l | DIRTY l), (OK r | DIRTY r) =>
        match mergeValues l r with
        | None => INVALID
        | Some merged =>
            if isDirty parsedLeft || isDirty parsedRight
            then DIRTY merged else OK merged
        end
    end.

(** [first.or(second)]: the first valid option wins; failing that, the first
    dirty result is returned; failing that, the union aborts. *)
Definition z_or (first second : Schema) : Schema :=
  λ input,
    let r1 := first input in
    let r2 := second input in
    if isValid r1 then r1
    else if isValid r2 then r2
    else if isDirty r1 then r1
    else if isDirty r2 then r2
    else INVALID.

End Zod.

(** ** The input schemas of the facade *)

Section Schemas.

Variable emailFormat : string → bool.

Definition loginInputSchema : Zod.Schema :=
  Zod.z_object
    [ ("email", Zod.z_string emailFormat
                  [Zod.Min 1 "Required"; Zod.Email "Invalid email"]);
      ("password", Zod.z_string emailFormat [Zod.Min 5 "Required"]) ].

Definition registerInputSchema : Zod.Schema :=
  Zod.z_and
    (Zod.z_object
       [ ("email", Zod.z_string emailFormat [Zod.Min 1 "Required"]);
         ("firstName", Zod.z_string emailFormat [Zod.Min 1 "Required"]);
         ("lastName", Zod.z_string emailFormat [Zod.Min 1 "Required"]);
         ("password", Zod.z_string emailFormat [Zod.Min 5 "Required"]) ])
    (Zod.z_or
       (Zod.z_object
          [ ("teamId", Zod.z_string emailFormat [Zod.Min 1 "Required"]);
            ("teamName", Zod.z_default Zod.z_null VNull) ])
       (Zod.z_object
          [ ("teamName", Zod.z_string emailFormat [Zod.Min 1 "Required"]);
            ("teamId", Zod.z_default Zod.z_null VNull) ])).

End Schemas.

(** The four fields every registration carries: email, first name and last
    name non-empty, password of at least five code units. *)
Definition baseFieldsOk (fields : gmap string Value) : bool :=
  nonEmptyString (get fields "email")
  && nonEmptyString (get fields "firstName")
  && nonEmptyString (get fields "lastName")
  && minLength 5 (get fields "password").

(** Exactly one of the two team fields is given: the one is a non-empty
    string and the other is missing, [undefined] or [null]. *)
Definition teamIdOnly (fields : gmap string Value) : bool :=
  nonEmptyString (get fields "teamId") && nullish (get fields "teamName").

Definition teamNameOnly (fields : gmap string Value) : bool :=
  nonEmptyString (get fields "teamName") && nullish (get fields "teamId").

(** What the registration schema returns for [fields] when it accepts them:
    the four base fields as given, the team field that was given, and [null]
    for the other one. *)
Definition registerOutput (fields : gmap string Value) : gmap string Value :=
  (if teamIdOnly fields
   then <["teamId" := get fields "teamId"]> (<["teamName" := VNull]> ∅)
   else <["teamName" := get fields "teamName"]> (<["teamId" := VNull]> ∅))
  ∪ <["email" := get fields "email"]>
      (<["firstName" := get fields "firstName"]>
         (<["lastName" := get fields "lastName"]>
            (<["password" := get fields "password"]> ∅))).

(** ** Promises, thrown values and nullable references *)

(** What a [throw] or a rejected promise carries. *)
Inductive Exn : Type :=
| Error (message : string)
| TypeError (message : string)
| NetworkError (message : string)
| HttpError (status : Z).

(** A settled promise. *)
Inductive Outcome (A : Type) : Type :=
| Resolved (a : A)
| Rejected (e : Exn).
Arguments Resolved {A} a.
Arguments Rejected {A} e.

(** A reference of type [A | null | undefined]. *)
Inductive Nullable (A : Type) : Type :=
| JUndefined
| JNull
| JValue (a : A).
Arguments JUndefined {A}.
Arguments JNull {A}.
Arguments JValue {A} a.

(** [x ?? y]. *)
Definition coalesce {A} (x y : Nullable A) : Nullable A :=
  match x with
  | JValue _ => x
  | _ => y
  end.
Infix "??" := coalesce (at level 45, left associativity).

(** [!!x] for a reference to an object: an object is always truthy. *)
Definition toBoolean {A} (x : Nullable A) : bool :=
  match x with
  | JValue _ => true
  | _ => false
  end.

(** ** The data model *)

(** Modelled from the spec: the [User] type of [@/types/api], whose
    declaration is not part of the sources (identifier, email, display
    name). *)
Record User : Type := mkUser {
  user_id : string;
  user_email : string;
  user_name : string
}.

(** The session of the session provider ([user] is optional). *)
Record Session : Type := mkSession {
  session_user : Nullable User;
  session_expires : string
}.

(** The body of the "who am I" response, read through [.data]. *)
Record ApiResponse : Type := mkApiResponse {
  response_data : Nullable User
}.

(** What the credential exchange resolves to when it does not redirect;
    [None] is an [error] or [url] that is [undefined] or [null]. *)
Record SignInResponse : Type := mkSignInResponse {
  signin_error : option string;
  signin_status : Z;
  signin_ok : bool;
  signin_url : option string
}.

(** ** The query client *)

Definition QueryKey : Type := list string.

Record QueryState : Type := mkQueryState {
  state_data : Nullable User;
  state_dataUpdatedAt : Z;
  state_error : option Exn
}.

(** [retry]: [false], or a number of retries ([true], retry for ever, is
    used by neither configuration). *)
Inductive Retry : Type :=
| RetryFalse
| RetryCount (n : nat).

(** [defaultOptions.queries]; [None] is a field the object does not set. *)
Record QueriesOptions : Type := mkQueriesOptions {
  throwOnError : option bool;
  refetchOnWindowFocus : option bool;
  retry : option Retry;
  staleTime : option Z
}.

Record DefaultOptions : Type := mkDefaultOptions {
  queries : QueriesOptions
}.

Record QueryClient : Type := mkQueryClient {
  defaultOptions : DefaultOptions;
  queryCache : gmap QueryKey QueryState
}.

(** [queryClient.getQueryData(queryKey)]: [undefined] when the query is not
    in the cache. *)
Definition getQueryData (c : QueryClient) (key : QueryKey) : Nullable User :=
  match queryCache c !! key with
  | Some st => state_data st
  | None => JUndefined
  end.

(** [new QueryClient({ defaultOptions })]: a client with an empty cache. *)
Definition newQueryClient (options : DefaultOptions) : QueryClient :=
  {| defaultOptions := options; queryCache := ∅ |}.

(** The library's own defaults for the fields a configuration may leave
    unset. *)
Module Defaults.
Definition throwOnError : bool := false.
Definition refetchOnWindowFocus : bool := true.
Definition retry : Retry := RetryCount 3.
Definition staleTime : Z := 0.
End Defaults.

Definition effectiveThrowOnError (o : QueriesOptions) : bool :=
  default Defaults.throwOnError (throwOnError o).
Definition effectiveRefetchOnWindowFocus (o : QueriesOptions) : bool :=
  default Defaults.refetchOnWindowFocus (refetchOnWindowFocus o).
Definition effectiveRetry (o : QueriesOptions) : Retry :=
  default Defaults.retry (retry o).
Definition effectiveStaleTime (o : QueriesOptions) : Z :=
  default Defaults.staleTime (staleTime o).

(** Retries after the first failed attempt. *)
Definition retryCount (r : Retry) : nat :=
  match r with
  | RetryFalse => 0
  | RetryCount n => n
  end.

(** *** The two configurations *)

Definition queryConfig : DefaultOptions :=
  {| queries :=
       {| throwOnError := Some true;
          refetchOnWindowFocus := Some false;
          retry := Some RetryFalse;
          staleTime := Some (1000 * 60)%Z |} |}.

Definition queryClient : QueryClient := newQueryClient queryConfig.

Definition createQueryClient (_ : unit) : QueryClient :=
  newQueryClient
    {| queries :=
         {| throwOnError := None;
            refetchOnWindowFocus := None;
            retry := None;
            staleTime := Some (30 * 1000)%Z |} |}.

(** ** Effects *)

(** A caller-supplied callback [() => void], known by its name only: an
    invocation is observed as an event. *)
Definition Callback : Type := string.

Inductive Event : Type :=
| EvApiGet (url : string)
| EvSignIn (provider : string) (options : gmap string Value)
| EvSignOut (options : gmap string Value)
| EvRemoveQueries (queryKey : QueryKey)
| EvCall (f : Callback).

Global Instance Event_eq_dec : EqDecision Event.
Proof. solve_decision. Defined.

(** The collaborators: what each remote call settles to ([signIn] may
    resolve to [undefined], here [None]), what [useSession] currently holds
    and what [Date.now()] reads.  [observer] is the query observer the
    component that renders holds from its previous render: [None] in the
    first render of a component that is mounting, [Some b] in a re-render of
    a mounted one, [b] being the [enabled] option of its previous render. *)
Record Env : Type := mkEnv {
  api_get : string → Outcome (Nullable ApiResponse);
  signIn : string → gmap string Value → Outcome (option SignInResponse);
  signOut : gmap string Value → Outcome Value;
  useSession : Nullable Session;
  now : Z;
  observer : option bool
}.

(** The mutable state: the query client and the events so far, oldest
    first. *)
Record World : Type := mkWorld {
  client : QueryClient;
  trace : list Event
}.

(** An asynchronous computation run to completion. *)
Definition M (A : Type) : Type := Env → World → Outcome A * World.

Global Instance M_ret : MRet M := λ A a _ w, (Resolved a, w).

Global Instance M_bind : MBind M := λ A B f c env w,
  match c env w with
  | (Resolved a, w') => f a env w'
  | (Rejected e, w') => (Rejected e, w')
  end.

Definition throw {A} (e : Exn) : M A := λ _ w, (Rejected e, w).

(** [try { body } catch { handler }]. *)
Definition try_catch {A} (body : M A) (handler : Exn → M A) : M A :=
  λ env w,
    match body env w with
    | (Resolved a, w') => (Resolved a, w')
    | (Rejected e, w') => handler e env w'
    end.

(** The world once [ev] has happened. *)
Definition record (ev : Event) (w : World) : World :=
  {| client := client w; trace := trace w ++ [ev] |}.

Definition emit (ev : Event) : M unit := λ _ w, (Resolved (), record ev w).

(** [await promise]: a rejection is thrown at the await. *)
Definition await {A} (ev : Event) (settled : Env → Outcome A) : M A :=
  _ ← emit ev;
  λ env w, (settled env, w).

Definition useQueryClient : M QueryClient := λ _ w, (Resolved (client w), w).

(** [Date.now()]. *)
Definition dateNow : M Z := λ env w, (Resolved (now env), w).

(** [useSession().data]. *)
Definition useSessionData : M (Nullable Session) :=
  λ env w, (Resolved (useSession env), w).

(** The observer kept by the component from its previous render. *)
Definition useObserver : M (option bool) :=
  λ env w, (Resolved (observer env), w).

Definition setQueryCache (cache : gmap QueryKey QueryState) : M unit :=
  λ _ w,
    (Resolved (),
     {| client := {| defaultOptions := defaultOptions (client w);
                     queryCache := cache |};
        trace := trace w |}).

(** [f?.()]. *)
Definition callOptional (f : option Callback) : M unit :=
  match f with
  | Some f => emit (EvCall f)
  | None => mret ()
  end.

(** [queryClient.removeQueries({ queryKey })]: the filter is not exact, so
    every query whose key starts with [queryKey] is dropped. *)
Definition removeQueries (queryKey : QueryKey) : M unit :=
  _ ← emit (EvRemoveQueries queryKey);
  c ← useQueryClient;
  setQueryCache (filter (λ kv, ¬ queryKey `prefix_of` kv.1) (queryCache c)).

(** *** Queries *)

Record QueryOptions : Type := mkQueryOptions {
  queryKey : QueryKey;
  queryFn : M (Nullable User);
  enabled : option bool
}.

(** What [useQuery] hands to the component ([fetching] is
    [fetchStatus === 'fetching']). *)
Record QueryResult : Type := mkQueryResult {
  data : Nullable User;
  error : option Exn;
  fetching : bool
}.

Definition initialState : QueryState :=
  {| state_data := JUndefined; state_dataUpdatedAt := 0; state_error := None |}.

(** [query.isStaleByTime(staleTime)]; the facade never invalidates a
    query, so staleness is a matter of time alone. *)
Definition isStaleByTime (st : QueryState) (stale_time current : Z) : bool :=
  match state_data st with
  | JUndefined => true
  | _ => bool_decide (state_dataUpdatedAt st + stale_time - current ≤ 0)%Z
  end.

(** [query.state.status === 'error']: the last fetch failed. *)
Definition isError (st : QueryState) : bool :=
  match state_error st with
  | Some _ => true
  | None => false
  end.

(** [query.state.data === undefined]. *)
Definition noData (st : QueryState) : bool :=
  match state_data st with
  | JUndefined => true
  | _ => false
  end.

(** [shouldLoadOnMount]: an enabled query without data is loaded, unless it
    is in the error state and [retryOnMount] is off. *)
Definition shouldLoadOnMount (st : QueryState) (options : QueryOptions)
    (retryOnMount : bool) : bool :=
  default true (enabled options) && noData st
  && negb (isError st && negb retryOnMount).

(** The observer's decision on mount, with [refetchOnMount] at its default:
    a disabled query is never fetched; an enabled one is loaded when it has
    no data, and refetched when its data is stale. *)
Definition shouldFetchOnMount (st : QueryState) (options : QueryOptions)
    (retryOnMount : bool) (stale_time current : Z) : bool :=
  shouldLoadOnMount st options retryOnMount
  || (negb (noData st) && default true (enabled options)
      && isStaleByTime st stale_time current).

(** [shouldFetchOptionally], the decision in a re-render of a mounted
    observer: a fetch starts only when the observer's query is a new one
    ([queryChanged]) or was disabled in the previous render, and the query
    is enabled now and stale. *)
Definition shouldFetchOptionally (st : QueryState) (options : QueryOptions)
    (queryChanged prevEnabled : bool) (stale_time current : Z) : bool :=
  (queryChanged || negb prevEnabled) && default true (enabled options)
  && isStaleByTime st stale_time current.

(** Settle a computation instead of throwing. *)
Definition settle {A} (body : M A) : M (Outcome A) :=
  try_catch (a ← body; mret (Resolved a)) (λ e, mret (Rejected e)).

(** The retryer: the function is run again after a failed attempt while
    retries are left. *)
Fixpoint retryer {A} (retries : nat) (fn : M A) : M A :=
  match retries with
  | O => fn
  | S n => try_catch fn (λ _, retryer n fn)
  end.

(** The state a settled fetch leaves: the data is written on success; a
    failure, or a query function that resolves to [undefined], keeps the data
    and records the error. *)
Definition settledState (old : QueryState) (current : Z)
    (r : Outcome (Nullable User)) : QueryState :=
  match r with
  | Resolved JUndefined =>
      {| state_data := state_data old;
         state_dataUpdatedAt := state_dataUpdatedAt old;
         state_error := Some (Error "data is undefined") |}
  | Resolved d =>
      {| state_data := d; state_dataUpdatedAt := current; state_error := None |}
  | Rejected e =>
      {| state_data := state_data old;
         state_dataUpdatedAt := state_dataUpdatedAt old;
         state_error := Some e |}
  end.

(** One fetch of a query, run to completion. *)
Definition fetch (options : QueryOptions) : M unit :=
  c ← useQueryClient;
  r ← settle (retryer (retryCount (effectiveRetry (queries (defaultOptions c))))
                (queryFn options));
  c' ← useQueryClient;
  current ← dateNow;
  let old := default initialState (queryCache c' !! queryKey options) in
  setQueryCache (<[queryKey options := settledState old current r]> (queryCache c')).

(** The world once the query has been built in the cache. *)
Definition built (key : QueryKey) (w : World) : World :=
  {| client :=
       {| defaultOptions := defaultOptions (client w);
          queryCache :=
            <[key := default initialState (queryCache (client w) !! key)]>
              (queryCache (client w)) |};
     trace := trace w |}.

(** The result an observer shows for a query in state [st] when the render
    starts a fetch ([start]) or not: a fetch that starts without data clears
    the error and the status. *)
Definition optimisticResult (st : QueryState) (start : bool) : QueryResult :=
  {| data := state_data st;
     error := if start && noData st then None else state_error st;
     fetching := start |}.

(** Whether the query has to be built: it is not in the cache. *)
Definition missing (found : option QueryState) : bool :=
  match found with
  | Some _ => false
  | None => true
  end.

(** One render of [useQuery] (no suspense, no error reset boundary).  The
    query is built in the cache when it is not there; a mounted observer
    then gets a new query.  With [throwOnError] the observer does not retry
    on mount.  The fetch decision is the mount-time one in the first render
    and the optional one in a re-render.  A result in the error state that
    is not fetching is thrown when [throwOnError] is set, and then nothing is
    fetched; otherwise the fetch that was decided is run, its outcome being
    seen by the next render, and the result is returned. *)
Definition useQuery (options : QueryOptions) : M QueryResult :=
  c ← useQueryClient;
  current ← dateNow;
  mounted ← useObserver;
  let found := queryCache c !! queryKey options in
  let st := default initialState found in
  _ ← setQueryCache (<[queryKey options := st]> (queryCache c));
  let defaults := queries (defaultOptions c) in
  let rethrow := effectiveThrowOnError defaults in
  let start :=
    match mounted with
    | None =>
        shouldFetchOnMount st options (negb rethrow)
          (effectiveStaleTime defaults) current
    | Some prevEnabled =>
        shouldFetchOptionally st options (missing found) prevEnabled
          (effectiveStaleTime defaults) current
    end in
  let result := optimisticResult st start in
  match (if rethrow && negb (fetching result) then error result else None) with
  | Some e => throw e
  | None =>
      _ ← (if start then fetch options else mret ());
      mret result
  end.

(** *** Mutations *)

Record MutationOptions (V D : Type) : Type := mkMutationOptions {
  mutationFn : V → M D;
  onSuccess : option (D → M unit)
}.
Arguments mutationFn {V D} _ _.
Arguments onSuccess {V D} _.

(** [useMutation(options).mutateAsync(variables)]: the mutation function
    runs once (mutations are not retried by default), then the success
    handler; a rejection of either rejects the mutation and skips what
    follows. *)
Definition useMutation {V D} (options : MutationOptions V D) (variables : V)
  : M D :=
  d ← mutationFn options variables;
  _ ← match onSuccess options with
      | Some handler => handler d
      | None => mret ()
      end;
  mret d.

(** ** The facade *)

Definition getUserQueryOptions (_ : unit) : QueryOptions :=
  {| queryKey := ["user"];
     queryFn :=
       try_catch
         (response ← await (EvApiGet "/auth/me") (λ env, api_get env "/auth/me");
          match response with
          | JValue r => mret (response_data r)
          | _ => throw (TypeError "Cannot read properties of undefined")
          end)
         (λ _, mret JNull);
     enabled := None |}.

(** [session?.user]. *)
Definition sessionUser (session : Nullable Session) : Nullable User :=
  match session with
  | JValue s => session_user s
  | _ => JUndefined
  end.

Definition useUser (_ : unit) : M QueryResult :=
  session ← useSessionData;
  query ← useQuery
            {| queryKey := queryKey (getUserQueryOptions ());
               queryFn := queryFn (getUserQueryOptions ());
               enabled := Some (toBoolean session) |};
  mret {| data := sessionUser session ?? data query ?? JNull;
          error := error query;
          fetching := fetching query |}.

(** [result?.error] when it is truthy: a non-empty string. *)
Definition reportedError (result : option SignInResponse) : option string :=
  match result with
  | Some r =>
      match signin_error r with
      | Some msg => if decide (msg = "") then None else Some msg
      | None => None
      end
  | None => None
  end.

Definition useLogin (onSuccess : option Callback)
  : MutationOptions (gmap string Value) (option SignInResponse) :=
  {| mutationFn := λ data,
       let options := <["redirect" := VBool false]> data in
       result ← await (EvSignIn "credentials" options)
                  (λ env, signIn env "credentials" options);
       match reportedError result with
       | Some msg => throw (Error msg)
       | None => mret result
       end;
     onSuccess := (λ f _, emit (EvCall f)) <$> onSuccess |}.

Definition useLogout (onSuccess : option Callback) : MutationOptions unit Value :=
  {| mutationFn := λ _,
       let options := {["redirect" := VBool false]} in
       await (EvSignOut options) (λ env, signOut env options);
     onSuccess := Some (λ _,
       _ ← removeQueries ["user"];
       callOptional onSuccess) |}.

(** ** Submitting the login form *)

Inductive Submission (A : Type) : Type :=
| ValidationFailed
| Submitted (a : A).
Arguments ValidationFailed {A}.
Arguments Submitted {A} a.

Section Submit.

Variable emailFormat : string → bool.

(** Modelled from the spec: the submit handler of the login form, which is
    not part of the sources.  Credentials are validated against
    [loginInputSchema] before submission; only a valid input reaches the
    login mutation. *)
Definition submitLogin (onSuccess : option Callback) (input : Data)
  : M (Submission (option SignInResponse)) :=
  match Zod.safeParse (loginInputSchema emailFormat) input with
  | Zod.Success (Object credentials) =>
      result ← useMutation (useLogin onSuccess) credentials;
      mret (Submitted result)
  | _ => mret ValidationFailed
  end.

End Submit.

(** ** Sample collaborators *)

Module Sample.

Definition alice : User :=
  {| user_id := "u1"; user_email := "alice@example.com"; user_name := "Alice" |}.

Definition bob : User :=
  {| user_id := "u2"; user_email := "bob@example.com"; user_name := "Bob" |}.

(** A stand-in for the library's e-mail test: an [@] somewhere after the
    first character. *)
Fixpoint hasAt (s : string) : bool :=
  match s with
  | EmptyString => false
  | String c rest => bool_decide (c = "@"%char) || hasAt rest
  end.

Definition emailFormat (s : string) : bool :=
  match s with
  | EmptyString => false
  | String _ rest => hasAt rest
  end.

(** A client configured by [queryConfig] whose cache holds [u] under
    ["user"], written at time 0. *)
Definition clientHolding (u : User) : QueryClient :=
  {| defaultOptions := queryConfig;
     queryCache :=
       {[ ["user"] := {| state_data := JValue u;
                         state_dataUpdatedAt := 0;
                         state_error := None |} ]} |}.

Definition worldHolding (u : User) : World :=
  {| client := clientHolding u; trace := [] |}.

Definition freshWorld : World := {| client := queryClient; trace := [] |}.

Definition signedIn : SignInResponse :=
  {| signin_error := None; signin_status := 200; signin_ok := true;
     signin_url := Some "/" |}.

Definition refused : SignInResponse :=
  {| signin_error := Some "CredentialsSignin"; signin_status := 401;
     signin_ok := false; signin_url := None |}.

(** A visitor without a session; the provider accepts the credentials. *)
Definition visitor : Env :=
  {| api_get := λ _, Rejected (HttpError 401);
     signIn := λ _ _, Resolved (Some signedIn);
     signOut := λ _, Resolved VUndefined;
     useSession := JNull;
     now := 1000;
     observer := None |}.

(** A visitor whose credentials the provider refuses. *)
Definition stranger : Env :=
  {| api_get := λ _, Rejected (HttpError 401);
     signIn := λ _ _, Resolved (Some refused);
     signOut := λ _, Resolved VUndefined;
     useSession := JNull;
     now := 1000;
     observer := None |}.

(** Alice's browser, signed in. *)
Definition member : Env :=
  {| api_get := λ _, Resolved (JValue {| response_data := JValue alice |});
     signIn := λ _ _, Resolved (Some signedIn);
     signOut := λ _, Resolved VUndefined;
     useSession :=
       JValue {| session_user := JValue alice; session_expires := "2030-01-01" |};
     now := 1000;
     observer := None |}.

(** Alice's browser with the network down. *)
Definition offline : Env :=
  {| api_get := λ _, Rejected (NetworkError "Failed to fetch");
     signIn := λ _ _, Rejected (NetworkError "Failed to fetch");
     signOut := λ _, Rejected (NetworkError "Failed to fetch");
     useSession :=
       JValue {| session_user := JValue alice; session_expires := "2030-01-01" |};
     now := 1000;
     observer := None |}.

Definition credentials (email password : string) : gmap string Value :=
  {[ "email" := VStr email; "password" := VStr password ]}.

Definition registration (teamId teamName : Value) : gmap string Value :=
  <["teamId" := teamId]>
    (<["teamName" := teamName]>
       {[ "email" := VStr "alice@example.com";
          "firstName" := VStr "Alice";
          "lastName" := VStr "Liddell";
          "password" := VStr "hunter2" ]}).

End Sample.

(** ** What the lookup and a render leave behind *)

(** What the current-user lookup resolves to in [env]: the [data] of the
    response, and [null] when the request fails or answers with no object. *)
Definition whoAmI (env : Env) : Nullable User :=
  match api_get env "/auth/me" with
  | Resolved (JValue r) => response_data r
  | _ => JNull
  end.

(** The state of the ["user"] query as a render finds it. *)
Definition userState (w : World) : QueryState :=
  default initialState (queryCache (client w) !! ["user"]).

(** The options [useUser] hands to [useQuery] under a session value. *)
Definition userQueryOptions (session : Nullable Session) : QueryOptions :=
  {| queryKey := queryKey (getUserQueryOptions ());
     queryFn := queryFn (getUserQueryOptions ());
     enabled := Some (toBoolean session) |}.

(** Whether the client re-raises errors. *)
Definition rethrows (w : World) : bool :=
  effectiveThrowOnError (queries (defaultOptions (client w))).

(** Whether a render of [useUser] starts the lookup. *)
Definition startsLookup (env : Env) (w : World) : bool :=
  match observer env with
  | None =>
      shouldFetchOnMount (userState w) (userQueryOptions (useSession env))
        (negb (rethrows w))
        (effectiveStaleTime (queries (defaultOptions (client w)))) (now env)
  | Some prevEnabled =>
      shouldFetchOptionally (userState w) (userQueryOptions (useSession env))
        (missing (queryCache (client w) !! ["user"])) prevEnabled
        (effectiveStaleTime (queries (defaultOptions (client w)))) (now env)
  end.

(** The error a render of [useUser] throws, if it throws. *)
Definition thrown (env : Env) (w : World) : option Exn :=
  if rethrows w && negb (startsLookup env w)
  then state_error (userState w) else None.

(** The world once the lookup started by a render has settled. *)
Definition looked (env : Env) (w : World) : World :=
  {| client :=
       {| defaultOptions := defaultOptions (client w);
          queryCache :=
            <[["user"] := settledState (userState w) (now env) (Resolved (whoAmI env))]>
              (queryCache (client w)) |};
     trace := trace w ++ [EvApiGet "/auth/me"] |}.

(** ** More sample collaborators *)

Module Scenario.

(** Alice's browser a little more than a minute later. *)
Definition lateMember : Env :=
  {| api_get := api_get Sample.member;
     signIn := signIn Sample.member;
     signOut := signOut Sample.member;
     useSession := useSession Sample.member;
     now := 61000;
     observer := None |}.

(** A session that carries no user. *)
Definition userless : Env :=
  {| api_get := api_get Sample.member;
     signIn := signIn Sample.member;
     signOut := signOut Sample.member;
     useSession :=
       JValue {| session_user := JUndefined; session_expires := "2030-01-01" |};
     now := 1000;
     observer := None |}.

(** Alice's browser when [/auth/me] answers an object without [data]. *)
Definition dataless : Env :=
  {| api_get := λ _, Resolved (JValue {| response_data := JUndefined |});
     signIn := signIn Sample.member;
     signOut := signOut Sample.member;
     useSession := useSession Sample.member;
     now := 1000;
     observer := None |}.

(** A provider whose answer carries an empty error. *)
Definition blankError : SignInResponse :=
  {| signin_error := Some ""; signin_status := 200; signin_ok := true;
     signin_url := None |}.

Definition blank : Env :=
  {| api_get := api_get Sample.visitor;
     signIn := λ _ _, Resolved (Some blankError);
     signOut := signOut Sample.visitor;
     useSession := JNull;
     now := 1000;
     observer := None |}.

Definition entry (u : User) : QueryState :=
  {| state_data := JValue u; state_dataUpdatedAt := 0; state_error := None |}.

(** A cache with the user, a query below the user key and an unrelated
    one. *)
Definition busyWorld : World :=
  {| client :=
       {| defaultOptions := queryConfig;
          queryCache :=
            {[ ["user"] := entry Sample.alice;
               ["user"; "profile"] := entry Sample.alice;
               ["posts"] := entry Sample.bob ]} |};
     trace := [] |}.

(** A registration whose email is not an address. *)
Definition oddRegistration : gmap string Value :=
  <["email" := VStr "alice"]> (Sample.registration (VStr "t1") VUndefined).

End Scenario.

(** * Properties *)

(** ** zod combinators *)

Lemma mergeObjectSync_isValid pairs :
  Zod.isValid (Zod.mergeObjectSync pairs) =
    forallb (λ p, Zod.isValid p.1.2) pairs.
Proof.
  induction pairs as [|[[key r] alwaysSet] rest IH]; [done|].
  cbn [Zod.mergeObjectSync forallb fst snd]. rewrite <- IH.
  destruct r, (Zod.mergeObjectSync rest); done.
Qed.

Lemma mergeObjectSync_keys pairs o key :
  Zod.mergeObjectSync pairs = Zod.OK o ∨ Zod.mergeObjectSync pairs = Zod.DIRTY o →
  is_Some (o !! key) → key ∈ pairs.*1.*1.
Proof.
  revert o. induction pairs as [|[[k r] alwaysSet] rest IH]; intros o.
  - intros [[= <-]|[=]]. rewrite lookup_empty. by intros [? ?].
  - cbn [Zod.mergeObjectSync fmap list_fmap fst].
    intros Hm Hk. rewrite elem_of_cons.
    destruct (decide (key = k)) as [->|Hne]; [by left|right].
    destruct r as [v|v|]; [| |by destruct Hm];
      destruct (Zod.mergeObjectSync rest) as [o'|o'|] eqn:Hrest;
      try (by destruct Hm);
      (apply (IH o'); [by eauto|]);
      cbn [Zod.isDirty] in Hm;
      (assert (o = <[k:=v]> o' ∨ o = o') as [-> | ->]
         by (case_match; destruct Hm; simplify_eq; eauto));
      by rewrite ?lookup_insert_ne in Hk.
Qed.

Lemma z_object_isValid shape fields :
  Zod.isValid (Zod.z_object shape (Object fields)) =
    forallb (λ '(key, validator), Zod.isValid (validator (get fields key))) shape.
Proof.
  unfold Zod.z_object.
  transitivity (Zod.isValid (Zod.mergeObjectSync
    ((λ '(key, validator),
        (key, validator (get fields key), bool_decide (is_Some (fields !! key))))
       <$> shape))).
  { by case_match. }
  rewrite mergeObjectSync_isValid.
  induction shape as [|[key validator] rest IH]; [done|].
  cbn [fmap list_fmap forallb fst snd]. f_equal. apply IH.
Qed.

Lemma z_object_OK_keys shape fields out :
  Zod.z_object shape (Object fields) = Zod.OK out →
  ∃ o, out = Object o ∧ ∀ key, is_Some (o !! key) → key ∈ shape.*1.
Proof.
  unfold Zod.z_object. case_match eqn:Hm; intros [= <-].
  eexists; split; [done|]. intros key Hk.
  pose proof (mergeObjectSync_keys _ _ key (or_introl Hm) Hk) as Hin.
  clear Hm. revert Hin. rewrite <- !list_fmap_compose.
  rewrite !list_elem_of_fmap. intros [[k v] [-> Hin]]. by exists (k, v).
Qed.

Lemma z_object_Scalar shape v : Zod.z_object shape (Scalar v) = Zod.INVALID.
Proof. done. Qed.

Lemma safeParse_Success {A B} (schema : A → Zod.ParseReturn B) input out :
  Zod.safeParse schema input = Zod.Success out ↔ schema input = Zod.OK out.
Proof. unfold Zod.safeParse. case_match; naive_solver. Qed.

Lemma safeParse_Failure {A B} (schema : A → Zod.ParseReturn B) input :
  Zod.safeParse schema input = Zod.Failure ↔ Zod.isValid (schema input) = false.
Proof. unfold Zod.safeParse. by case_match. Qed.

(** ** The schemas *)

Section SchemaFacts.

Variable emailFormat : string → bool.

Lemma z_string_min n msg v :
  Zod.z_string emailFormat [Zod.Min n msg] v =
    match v with
    | VStr s => if minLength n v then Zod.OK v else Zod.DIRTY v
    | _ => Zod.INVALID
    end.
Proof.
  destruct v; simpl; try done.
  repeat case_bool_decide; simpl; try done; lia.
Qed.

Lemma z_string_min_isValid n msg v :
  Zod.isValid (Zod.z_string emailFormat [Zod.Min n msg] v) = minLength n v.
Proof. rewrite z_string_min. destruct v; try done. by case_match. Qed.

Lemma z_string_email_isValid n msg msg' v :
  Zod.isValid (Zod.z_string emailFormat [Zod.Min n msg; Zod.Email msg'] v) =
    match v with
    | VStr s => minLength n v && emailFormat s
    | _ => false
    end.
Proof.
  destruct v; try done. simpl.
  repeat case_bool_decide; destruct (emailFormat s); simpl; try done; lia.
Qed.

Lemma z_default_null v :
  Zod.z_default Zod.z_null VNull v =
    if nullish v then Zod.OK VNull else Zod.INVALID.
Proof. by destruct v. Qed.

(** The shapes [registerInputSchema] is built from. *)
Local Abbreviation teamIdOption :=
  (Zod.z_object
     [ ("teamId", Zod.z_string emailFormat [Zod.Min 1 "Required"]);
       ("teamName", Zod.z_default Zod.z_null VNull) ]).
Local Abbreviation teamNameOption :=
  (Zod.z_object
     [ ("teamName", Zod.z_string emailFormat [Zod.Min 1 "Required"]);
       ("teamId", Zod.z_default Zod.z_null VNull) ]).
Local Abbreviation baseObject :=
  (Zod.z_object
     [ ("email", Zod.z_string emailFormat [Zod.Min 1 "Required"]);
       ("firstName", Zod.z_string emailFormat [Zod.Min 1 "Required"]);
       ("lastName", Zod.z_string emailFormat [Zod.Min 1 "Required"]);
       ("password", Zod.z_string emailFormat [Zod.Min 5 "Required"]) ]).

Local Ltac field_cases :=
  unfold Zod.z_object; cbn [fmap list_fmap];
  rewrite ?z_string_min, ?z_default_null; unfold nonEmptyString;
  repeat match goal with
         | |- context [get ?d ?k] => destruct (get d k); simpl; try done
         end;
  repeat case_bool_decide; simpl; try done.

Lemma teamIdOption_spec fields :
  if teamIdOnly fields
  then teamIdOption (Object fields) =
         Zod.OK (Object (<["teamId" := get fields "teamId"]>
                           (<["teamName" := VNull]> ∅)))
  else Zod.isValid (teamIdOption (Object fields)) = false.
Proof. unfold teamIdOnly, teamNameOnly. field_cases. Qed.

Lemma teamNameOption_spec fields :
  if teamNameOnly fields
  then teamNameOption (Object fields) =
         Zod.OK (Object (<["teamName" := get fields "teamName"]>
                           (<["teamId" := VNull]> ∅)))
  else Zod.isValid (teamNameOption (Object fields)) = false.
Proof. unfold teamIdOnly, teamNameOnly. field_cases. Qed.

Lemma baseObject_isValid fields :
  Zod.isValid (baseObject (Object fields)) = baseFieldsOk fields.
Proof.
  rewrite z_object_isValid. cbn [forallb].
  rewrite !z_string_min_isValid. unfold baseFieldsOk, nonEmptyString.
  by rewrite andb_true_r, !andb_assoc.
Qed.

Lemma agree_outside (keys : list string) (base : gmap string Value) a va b vb :
  (∀ key, is_Some (base !! key) → key ∈ keys) →
  a ∉ keys → b ∉ keys →
  map_agree base (<[a := va]> (<[b := vb]> ∅)).
Proof.
  intros Hkeys Ha Hb. apply map_agree_spec. intros i x y Hx Hy.
  specialize (Hkeys i (mk_is_Some _ _ Hx)).
  apply lookup_insert_Some in Hy as [[<- _]|[_ Hy]]; [done|].
  apply lookup_insert_Some in Hy as [[<- _]|[_ Hy]]; done.
Qed.

Local Ltac not_a_key :=
  let H := fresh in
  intros H; repeat (apply elem_of_cons in H as [[=]|H]); by apply elem_of_nil in H.

Lemma register_parse fields :
  if baseFieldsOk fields && (teamIdOnly fields || teamNameOnly fields)
  then ∃ base,
      (∀ key, is_Some (base !! key) →
              key ∈ ["email"; "firstName"; "lastName"; "password"]) ∧
      registerInputSchema emailFormat (Object fields) =
        Zod.OK (Object
          ((if teamIdOnly fields
            then <["teamId" := get fields "teamId"]> (<["teamName" := VNull]> ∅)
            else <["teamName" := get fields "teamName"]> (<["teamId" := VNull]> ∅))
           ∪ base))
  else Zod.isValid (registerInputSchema emailFormat (Object fields)) = false.
Proof.
  unfold registerInputSchema, Zod.z_and, Zod.z_or.
  pose proof (baseObject_isValid fields) as Hbase.
  pose proof (teamIdOption_spec fields) as H1.
  pose proof (teamNameOption_spec fields) as H2.
  destruct (baseObject (Object fields)) as [l|l|] eqn:HL; simpl in Hbase;
    rewrite <- Hbase; cbn [andb].
  - apply z_object_OK_keys in HL as (base & -> & Hkeys).
    destruct (teamIdOnly fields) eqn:E1; cbn [orb].
    + rewrite H1. cbn [Zod.isValid Zod.mergeValues].
      exists base. split; [done|].
      rewrite decide_True; [done|].
      eapply agree_outside; [exact Hkeys|not_a_key..].
    + rewrite H1. destruct (teamNameOnly fields) eqn:E2.
      * rewrite H2. cbn [Zod.isValid Zod.mergeValues].
        exists base. split; [done|].
        rewrite decide_True; [done|].
        eapply agree_outside; [exact Hkeys|not_a_key..].
      * revert H1 H2.
        generalize (teamIdOption (Object fields)), (teamNameOption (Object fields)).
        intros [?|?|] [?|?|] ? ?; simplify_eq/=; by repeat case_match.
  - generalize (teamIdOption (Object fields)), (teamNameOption (Object fields)).
    intros [?|?|] [?|?|]; simpl; by repeat case_match.
  - done.
Qed.

End SchemaFacts.

Section SchemaClaims.

Variable emailFormat : string → bool.

Lemma loginInputSchema_isValid fields :
  Zod.isValid (loginInputSchema emailFormat (Object fields)) =
    match get fields "email" with
    | VStr s => minLength 1 (VStr s) && emailFormat s
    | _ => false
    end
    && minLength 5 (get fields "password").
Proof.
  unfold loginInputSchema. rewrite z_object_isValid. cbn [forallb].
  rewrite z_string_email_isValid, z_string_min_isValid, andb_true_r.
  by destruct (get fields "email").
Qed.

Lemma registerInputSchema_Scalar v :
  registerInputSchema emailFormat (Scalar v) = Zod.INVALID.
Proof. done. Qed.

(** C7: the registration schema rejects an input in which both the team
    identifier and the team name are non-empty strings, rejects an input in
    which neither is a non-empty string (so in particular one in which both
    are missing, [undefined] or [null]), and accepts an input whose email,
    first name and last name are non-empty, whose password has at least five
    code units and in which exactly one of the two is a non-empty string
    while the other is missing, [undefined] or [null]. *)
Theorem register_exactly_one_team (fields : gmap string Value) :
  (nonEmptyString (get fields "teamId") = true →
   nonEmptyString (get fields "teamName") = true →
   Zod.safeParse (registerInputSchema emailFormat) (Object fields) = Zod.Failure)
  ∧ (nonEmptyString (get fields "teamId") = false →
     nonEmptyString (get fields "teamName") = false →
     Zod.safeParse (registerInputSchema emailFormat) (Object fields) = Zod.Failure)
  ∧ (baseFieldsOk fields = true →
     teamIdOnly fields = true ∨ teamNameOnly fields = true →
     ∃ out, Zod.safeParse (registerInputSchema emailFormat) (Object fields)
            = Zod.Success out).
Proof.
  pose proof (register_parse emailFormat fields) as Hparse.
  unfold teamIdOnly, teamNameOnly in *.
  split; [|split].
  - intros Hid Hname. apply safeParse_Failure.
    rewrite Hid, Hname in Hparse.
    destruct (get fields "teamId"), (get fields "teamName"); try done;
      by rewrite andb_false_r in Hparse.
  - intros Hid Hname. apply safeParse_Failure.
    rewrite Hid, Hname in Hparse. by rewrite andb_false_r in Hparse.
  - intros Hbase Hone. rewrite Hbase in Hparse.
    assert (nonEmptyString (get fields "teamId") && nullish (get fields "teamName")
            || nonEmptyString (get fields "teamName") && nullish (get fields "teamId")
            = true) as Hor.
    { destruct Hone as [-> | ->]; [done|by rewrite orb_true_r]. }
    rewrite Hor in Hparse. destruct Hparse as (base & _ & Hout).
    eexists. by apply safeParse_Success.
Qed.

(** C10: whatever the registration schema accepts, it parses to an object
    that holds both [teamId] and [teamName]: one of them is a non-empty
    string and the other is [null]. *)
Theorem register_output_team_fields (input out : Data) :
  Zod.safeParse (registerInputSchema emailFormat) input = Zod.Success out →
  ∃ (o : gmap string Value) (s : string),
    out = Object o ∧ (1 ≤ String.length s)%nat ∧
    ((o !! "teamId" = Some (VStr s) ∧ o !! "teamName" = Some VNull)
     ∨ (o !! "teamName" = Some (VStr s) ∧ o !! "teamId" = Some VNull)).
Proof.
  intros Hok%safeParse_Success. destruct input as [v|fields]; [done|].
  pose proof (register_parse emailFormat fields) as Hparse.
  destruct (baseFieldsOk fields && (teamIdOnly fields || teamNameOnly fields))
    eqn:Hcond; [|by rewrite Hok in Hparse].
  destruct Hparse as (base & _ & Hout). rewrite Hok in Hout.
  injection Hout as ->.
  apply andb_prop in Hcond as [_ Hteam].
  unfold teamIdOnly, teamNameOnly, nonEmptyString in *.
  destruct (minLength 1 (get fields "teamId") && nullish (get fields "teamName"))
    eqn:Hid.
  - apply andb_prop in Hid as [Hlen _].
    destruct (get fields "teamId") as [| | | |s]; try done.
    apply bool_decide_eq_true in Hlen.
    eexists _, s. split; [done|]. split; [done|]. left.
    split; by apply lookup_union_Some_l.
  - cbn [orb] in Hteam. apply andb_prop in Hteam as [Hlen _].
    destruct (get fields "teamName") as [| | | |s]; try done.
    apply bool_decide_eq_true in Hlen.
    eexists _, s. split; [done|]. split; [done|]. right.
    split; by apply lookup_union_Some_l.
Qed.

End SchemaClaims.

(** ** Running computations *)

Lemma run_bind {A B} (c : M A) (f : A → M B) env w :
  (c ≫= f) env w =
    match c env w with
    | (Resolved a, w') => f a env w'
    | (Rejected e, w') => (Rejected e, w')
    end.
Proof. done. Qed.

Lemma run_await {A} ev (settled : Env → Outcome A) env w :
  await ev settled env w = (settled env, record ev w).
Proof. done. Qed.

Lemma run_removeQueries key env w :
  removeQueries key env w =
    (Resolved (),
     {| client :=
          {| defaultOptions := defaultOptions (client w);
             queryCache :=
               filter (λ kv, ¬ key `prefix_of` kv.1) (queryCache (client w)) |};
        trace := trace w ++ [EvRemoveQueries key] |}).
Proof. done. Qed.

Lemma removeQueries_lookup (key : QueryKey) (cache : gmap QueryKey QueryState) :
  filter (λ kv, ¬ key `prefix_of` kv.1) cache !! key = None.
Proof.
  apply map_lookup_filter_None. right. intros st _ Hnot. by apply Hnot.
Qed.

Lemma removeQueries_other (key k : QueryKey) (cache : gmap QueryKey QueryState) :
  ¬ key `prefix_of` k →
  filter (λ kv, ¬ key `prefix_of` kv.1) cache !! k = cache !! k.
Proof.
  intros Hk. destruct (cache !! k) as [st|] eqn:Hst.
  - by apply map_lookup_filter_Some.
  - apply map_lookup_filter_None. by left.
Qed.

Lemma settle_resolves {A} (body : M A) env w :
  ∃ o w', settle body env w = (Resolved o, w').
Proof.
  unfold settle, try_catch. rewrite run_bind.
  destruct (body env w) as [[a|e] w']; by eexists _, _.
Qed.

(** The query function of the current-user lookup, run. *)
Lemma run_queryFn env w :
  queryFn (getUserQueryOptions ()) env w =
    (Resolved match api_get env "/auth/me" with
              | Resolved (JValue r) => response_data r
              | _ => JNull
              end,
     record (EvApiGet "/auth/me") w).
Proof.
  cbn [queryFn getUserQueryOptions]. unfold try_catch.
  rewrite run_bind, run_await.
  by destruct (api_get env "/auth/me") as [[| |r]|e].
Qed.

(** C4: the query function of the current-user lookup never rejects, and
    when the [/auth/me] request fails, for whatever reason, it resolves to
    [null]. *)
Theorem queryFn_absorbs_failures (env : Env) (w : World) :
  (∃ v w', queryFn (getUserQueryOptions ()) env w = (Resolved v, w'))
  ∧ (∀ e, api_get env "/auth/me" = Rejected e →
          (queryFn (getUserQueryOptions ()) env w).1 = Resolved JNull).
Proof.
  rewrite run_queryFn. split; [by eexists _, _|].
  by intros e ->.
Qed.

Lemma queryFn_absorbs_failures_witness :
  api_get Sample.offline "/auth/me" = Rejected (NetworkError "Failed to fetch")
  ∧ (queryFn (getUserQueryOptions ()) Sample.offline Sample.freshWorld).1
    = Resolved JNull.
Proof.
  split; [reflexivity|].
  exact (proj2 (queryFn_absorbs_failures Sample.offline Sample.freshWorld)
           (NetworkError "Failed to fetch") eq_refl).
Defined.

(** ** Queries *)

Lemma retryer_resolved {A} n (fn : M A) env w a w' :
  fn env w = (Resolved a, w') → retryer n fn env w = (Resolved a, w').
Proof. intros Hfn. destruct n; cbn; unfold try_catch; by rewrite Hfn. Qed.

Lemma run_queryFn_whoAmI env w :
  queryFn (getUserQueryOptions ()) env w
  = (Resolved (whoAmI env), record (EvApiGet "/auth/me") w).
Proof. apply run_queryFn. Qed.

(** The fetch of the ["user"] query: one request, whatever the retry
    policy, and the state it settles to. *)
Lemma run_fetch_user flag env w :
  fetch {| queryKey := ["user"];
           queryFn := queryFn (getUserQueryOptions ());
           enabled := flag |} env w
  = (Resolved (), looked env w).
Proof.
  unfold fetch. rewrite run_bind. cbn [useQueryClient]. rewrite run_bind.
  cbn [queryFn queryKey]. unfold settle, try_catch. rewrite run_bind.
  erewrite retryer_resolved by apply run_queryFn_whoAmI.
  done.
Qed.

(** ** The current-user accessor *)

(** The options [useUser] hands to [useQuery]. *)
Lemma run_useUser env w :
  useUser () env w =
    match useQuery
            {| queryKey := ["user"];
               queryFn := queryFn (getUserQueryOptions ());
               enabled := Some (toBoolean (useSession env)) |} env w with
    | (Resolved query, w') =>
        (Resolved
           {| data := sessionUser (useSession env) ?? data query ?? JNull;
              error := error query;
              fetching := fetching query |}, w')
    | (Rejected e, w') => (Rejected e, w')
    end.
Proof. done. Qed.

(** A render of [useUser], run: it throws the stored error, or returns and
    the lookup it started, if any, settles. *)
Lemma run_useUser_full env w :
  useUser () env w
  = match thrown env w with
    | Some e => (Rejected e, built ["user"] w)
    | None =>
        (Resolved
           {| data := sessionUser (useSession env) ?? state_data (userState w) ?? JNull;
              error := error (optimisticResult (userState w) (startsLookup env w));
              fetching := startsLookup env w |},
         if startsLookup env w then looked env (built ["user"] w)
         else built ["user"] w)
    end.
Proof.
  rewrite run_useUser. unfold useQuery.
  rewrite run_bind. cbn [useQueryClient]. rewrite run_bind. cbn [dateNow].
  rewrite run_bind. cbn [useObserver]. rewrite run_bind.
  cbn [setQueryCache queryKey].
  unfold thrown, startsLookup, rethrows, userQueryOptions, userState,
    optimisticResult.
  cbn [queryKey getUserQueryOptions fetching error].
  set (start := match observer env with
                | Some prevEnabled => _
                | None => _
                end).
  destruct (effectiveThrowOnError _ && negb start) eqn:Hthrow.
  - destruct start; [by rewrite andb_false_r in Hthrow|]. cbn [andb].
    unfold QueryKey. by destruct (state_error _).
  - destruct start; [|done].
    rewrite run_bind. by rewrite run_fetch_user.
Qed.

Lemma built_id key w :
  is_Some (queryCache (client w) !! key) → built key w = w.
Proof.
  intros [st Hst]. destruct w as [[options cache] events]. unfold built.
  cbn in *. by rewrite Hst, insert_id.
Qed.

Lemma userState_built w : userState (built ["user"] w) = userState w.
Proof. unfold userState, built. cbn. by rewrite lookup_insert_eq. Qed.

(** The cache after a render that started the lookup. *)
Lemma looked_built_cache env w :
  queryCache (client (looked env (built ["user"] w)))
  = <[["user"] := settledState (userState w) (now env) (Resolved (whoAmI env))]>
      (queryCache (client w)).
Proof.
  unfold looked. rewrite userState_built. unfold built. cbn.
  by rewrite insert_insert_eq.
Qed.

Lemma userState_lookup w st :
  queryCache (client w) !! ["user"] = Some st → userState w = st.
Proof. unfold userState. by intros ->. Qed.

Lemma userState_data w :
  state_data (userState w) = getQueryData (client w) ["user"].
Proof.
  unfold userState, getQueryData.
  change (@lookup (list string)) with (@lookup QueryKey).
  by destruct (queryCache (client w) !! _).
Qed.

(** Without a session nothing makes the observer fetch, at mount or in a
    re-render. *)
Lemma startsLookup_disabled env w :
  toBoolean (useSession env) = false → startsLookup env w = false.
Proof.
  intros Hnone.
  unfold startsLookup, shouldFetchOnMount, shouldLoadOnMount,
    shouldFetchOptionally, userQueryOptions.
  cbn [enabled]. rewrite Hnone. cbn [default from_option id andb orb].
  destruct (observer env); by rewrite ?andb_false_r.
Qed.

(** A render does not throw when the query holds no error or the client
    does not re-raise. *)
Lemma thrown_None env w :
  effectiveThrowOnError (queries (defaultOptions (client w))) = false
  ∨ state_error (userState w) = None →
  thrown env w = None.
Proof.
  unfold thrown, rethrows. intros [-> | ->]; [done|]. by case_match.
Qed.







(** ** Logout *)

(** The options [useLogout] signs out with. *)
Local Abbreviation noRedirect := ({["redirect" := VBool false]} : gmap string Value).

(** The mutation of [useLogout], run: the sign-out decides everything. *)
Lemma run_useLogout callback env w :
  useMutation (useLogout callback) () env w =
    match signOut env noRedirect with
    | Resolved v =>
        (Resolved v,
         {| client :=
              {| defaultOptions := defaultOptions (client w);
                 queryCache :=
                   filter (λ kv, ¬ ["user"] `prefix_of` kv.1)
                     (queryCache (client w)) |};
            trace :=
              trace w
                ++ [EvSignOut noRedirect; EvRemoveQueries ["user"]]
                ++ option_list (EvCall <$> callback) |})
    | Rejected e => (Rejected e, record (EvSignOut noRedirect) w)
    end.
Proof.
  unfold useMutation. rewrite run_bind. cbn [mutationFn useLogout].
  rewrite run_await. destruct (signOut env noRedirect) as [v|e]; [|done].
  rewrite run_bind. cbn [onSuccess useLogout]. rewrite run_bind, run_removeQueries.
  destruct callback as [f|]; cbn; unfold record, mret, M_ret; cbn;
    by rewrite <- ?app_assoc.
Qed.

(** C3, as the code has it: whatever the cache held, once the provider's
    sign-out has succeeded the mutation of [useLogout] leaves no entry under
    ["user"], and the caller's success callback, when one was supplied, is
    called after the removal and is the last thing to happen. *)
Theorem logout_removes_user
    (env : Env) (w : World) (callback : option Callback) (v : Value) :
  signOut env {["redirect" := VBool false]} = Resolved v →
  ∃ w',
    useMutation (useLogout callback) () env w = (Resolved v, w')
    ∧ queryCache (client w') !! ["user"] = None
    ∧ trace w' =
        trace w
          ++ [EvSignOut {["redirect" := VBool false]}; EvRemoveQueries ["user"]]
          ++ option_list (EvCall <$> callback).
Proof.
  intros Hout. rewrite run_useLogout, Hout. eexists. split; [done|].
  split; [|done]. apply removeQueries_lookup.
Qed.

Lemma logout_removes_user_witness :
  is_Some (queryCache (client (Sample.worldHolding Sample.alice)) !! ["user"])
  ∧ ∃ w',
      useMutation (useLogout (Some "redirectHome")) () Sample.member
        (Sample.worldHolding Sample.alice) = (Resolved VUndefined, w')
      ∧ queryCache (client w') !! ["user"] = None
      ∧ trace w' =
          trace (Sample.worldHolding Sample.alice)
            ++ [EvSignOut {["redirect" := VBool false]}; EvRemoveQueries ["user"]]
            ++ [EvCall "redirectHome"].
Proof.
  split; [by eexists|].
  exact (logout_removes_user Sample.member (Sample.worldHolding Sample.alice)
           (Some "redirectHome") VUndefined eq_refl).
Defined.

(** C3 as stated fails: when the sign-out is rejected, the entry under
    ["user"] is still in the cache after the mutation has settled, and the
    callback has not been called. *)
Lemma logout_failure_keeps_user :
  useMutation (useLogout (Some "redirectHome")) () Sample.offline
    (Sample.worldHolding Sample.alice)
  = (Rejected (NetworkError "Failed to fetch"),
     {| client := Sample.clientHolding Sample.alice;
        trace := [EvSignOut {["redirect" := VBool false]}] |})
  ∧ is_Some (queryCache (Sample.clientHolding Sample.alice) !! ["user"]).
Proof. split; [by rewrite run_useLogout|by eexists]. Qed.

(** C9: when the provider's sign-out is rejected, the mutation of
    [useLogout] is rejected with the same error, the query client (and with
    it the entry under ["user"]) is what it was, and the only event is the
    sign-out attempt: nothing is removed and the callback is not called. *)
Theorem logout_failure_leaves_cache
    (env : Env) (w : World) (callback : option Callback) (e : Exn) :
  signOut env {["redirect" := VBool false]} = Rejected e →
  ∃ w',
    useMutation (useLogout callback) () env w = (Rejected e, w')
    ∧ client w' = client w
    ∧ trace w' = trace w ++ [EvSignOut {["redirect" := VBool false]}].
Proof.
  intros Hout. rewrite run_useLogout, Hout. by eexists.
Qed.

Lemma logout_failure_leaves_cache_witness :
  ∃ w',
    useMutation (useLogout (Some "redirectHome")) () Sample.offline
      (Sample.worldHolding Sample.alice)
    = (Rejected (NetworkError "Failed to fetch"), w')
    ∧ client w' = Sample.clientHolding Sample.alice
    ∧ trace w' = [EvSignOut {["redirect" := VBool false]}].
Proof.
  exact (logout_failure_leaves_cache Sample.offline
           (Sample.worldHolding Sample.alice) (Some "redirectHome")
           (NetworkError "Failed to fetch") eq_refl).
Defined.

(** ** Login *)

(** The mutation of [useLogin], run. *)
Lemma run_useLogin callback credentials env w :
  let options := <["redirect" := VBool false]> credentials in
  useMutation (useLogin callback) credentials env w =
    match signIn env "credentials" options with
    | Resolved result =>
        match reportedError result with
        | Some msg =>
            (Rejected (Error msg), record (EvSignIn "credentials" options) w)
        | None =>
            (Resolved result,
             {| client := client w;
                trace :=
                  trace w ++ [EvSignIn "credentials" options]
                    ++ option_list (EvCall <$> callback) |})
        end
    | Rejected e => (Rejected e, record (EvSignIn "credentials" options) w)
    end.
Proof.
  intros options. unfold useMutation. rewrite run_bind.
  cbn [mutationFn useLogin]. rewrite run_bind, run_await. fold options.
  destruct (signIn env "credentials" options) as [result|e]; [|done].
  destruct (reportedError result) as [msg|]; [reflexivity|].
  destruct callback as [f|]; cbn; rewrite run_bind; unfold emit, record; cbn;
    by rewrite ?app_nil_r, <- ?app_assoc.
Qed.

(** C5: in a login attempt the provider answers, if the answer reports an
    error ([result.error] is a non-empty string) the mutation is rejected
    with an [Error] of that message and the only event is the credential
    exchange, so the success callback is called zero times; if the answer
    reports none, the mutation resolves to the answer and the exchange is
    followed by exactly one call of the success callback. *)
Theorem login_callback_on_success_only
    (env : Env) (w : World) (f : Callback)
    (credentials : gmap string Value) (result : option SignInResponse) :
  signIn env "credentials" (<["redirect" := VBool false]> credentials)
    = Resolved result →
  let exchange :=
    EvSignIn "credentials" (<["redirect" := VBool false]> credentials) in
  match reportedError result with
  | Some msg =>
      useMutation (useLogin (Some f)) credentials env w
      = (Rejected (Error msg), {| client := client w; trace := trace w ++ [exchange] |})
  | None =>
      useMutation (useLogin (Some f)) credentials env w
      = (Resolved result,
         {| client := client w; trace := trace w ++ [exchange; EvCall f] |})
  end.
Proof.
  intros Hin exchange. pose proof (run_useLogin (Some f) credentials env w) as Hrun.
  cbn zeta in Hrun. rewrite Hin in Hrun.
  by destruct (reportedError result).
Qed.

Lemma login_callback_on_success_only_witness :
  useMutation (useLogin (Some "goHome"))
    (Sample.credentials "alice@example.com" "hunter2")
    Sample.stranger Sample.freshWorld
  = (Rejected (Error "CredentialsSignin"),
     {| client := queryClient;
        trace :=
          [EvSignIn "credentials"
             (<["redirect" := VBool false]>
                (Sample.credentials "alice@example.com" "hunter2"))] |})
  ∧ useMutation (useLogin (Some "goHome"))
      (Sample.credentials "alice@example.com" "hunter2")
      Sample.visitor Sample.freshWorld
    = (Resolved (Some Sample.signedIn),
       {| client := queryClient;
          trace :=
            [EvSignIn "credentials"
               (<["redirect" := VBool false]>
                  (Sample.credentials "alice@example.com" "hunter2"));
             EvCall "goHome"] |}).
Proof.
  split.
  - exact (login_callback_on_success_only Sample.stranger Sample.freshWorld
             "goHome" (Sample.credentials "alice@example.com" "hunter2")
             (Some Sample.refused) eq_refl).
  - exact (login_callback_on_success_only Sample.visitor Sample.freshWorld
             "goHome" (Sample.credentials "alice@example.com" "hunter2")
             (Some Sample.signedIn) eq_refl).
Defined.

(** ** Submitting the login form *)

Section SubmitClaims.

Variable emailFormat : string → bool.

(** C6: a login input whose password is a string of fewer than five code
    units, or whose email is a string that fails the e-mail format test, is
    rejected by [loginInputSchema]; the submission stops at validation,
    leaving the world as it was: no credential exchange, no event. *)
Theorem login_validation_precedes_exchange
    (fields : gmap string Value) (callback : option Callback)
    (env : Env) (w : World) :
  (∃ p, fields !! "password" = Some (VStr p) ∧ (String.length p < 5)%nat)
  ∨ (∃ e, fields !! "email" = Some (VStr e) ∧ emailFormat e = false) →
  Zod.safeParse (loginInputSchema emailFormat) (Object fields) = Zod.Failure
  ∧ submitLogin emailFormat callback (Object fields) env w
    = (Resolved ValidationFailed, w).
Proof.
  intros Hbad.
  assert (Zod.safeParse (loginInputSchema emailFormat) (Object fields)
          = Zod.Failure) as Hfail.
  { apply safeParse_Failure. rewrite loginInputSchema_isValid. unfold get.
    destruct Hbad as [(p & -> & Hp)|(e & -> & He)]; cbn [default from_option id].
    - apply andb_false_intro2. cbn [minLength]. apply bool_decide_eq_false. lia.
    - by rewrite He, andb_false_r. }
  split; [done|]. unfold submitLogin. by rewrite Hfail.
Qed.

End SubmitClaims.

Lemma login_validation_precedes_exchange_witness :
  Zod.safeParse (loginInputSchema Sample.emailFormat)
    (Object (Sample.credentials "alice@example.com" "abcd")) = Zod.Failure
  ∧ submitLogin Sample.emailFormat (Some "goHome")
      (Object (Sample.credentials "alice@example.com" "abcd"))
      Sample.visitor Sample.freshWorld
    = (Resolved ValidationFailed, Sample.freshWorld).
Proof.
  apply (login_validation_precedes_exchange Sample.emailFormat).
  left. exists "abcd". split; [reflexivity|]. cbn. lia.
Defined.

(** ** The registration schema on sample inputs *)

Lemma register_exactly_one_team_witness :
  Zod.safeParse (registerInputSchema Sample.emailFormat)
    (Object (Sample.registration (VStr "t1") (VStr "Rabbits"))) = Zod.Failure
  ∧ Zod.safeParse (registerInputSchema Sample.emailFormat)
      (Object (Sample.registration VUndefined VNull)) = Zod.Failure
  ∧ ∃ out, Zod.safeParse (registerInputSchema Sample.emailFormat)
             (Object (Sample.registration (VStr "t1") VNull)) = Zod.Success out.
Proof.
  split; [|split].
  - exact (proj1 (register_exactly_one_team Sample.emailFormat
                    (Sample.registration (VStr "t1") (VStr "Rabbits")))
             eq_refl eq_refl).
  - exact (proj1 (proj2 (register_exactly_one_team Sample.emailFormat
                           (Sample.registration VUndefined VNull)))
             eq_refl eq_refl).
  - exact (proj2 (proj2 (register_exactly_one_team Sample.emailFormat
                           (Sample.registration (VStr "t1") VNull)))
             eq_refl (or_introl eq_refl)).
Defined.

Lemma register_output_team_fields_witness :
  Zod.safeParse (registerInputSchema Sample.emailFormat)
    (Object (Sample.registration VUndefined (VStr "Rabbits")))
  = Zod.Success (Object (Sample.registration VNull (VStr "Rabbits")))
  ∧ ∃ (o : gmap string Value) (s : string),
      Object (Sample.registration VNull (VStr "Rabbits")) = Object o
      ∧ (1 ≤ String.length s)%nat
      ∧ ((o !! "teamId" = Some (VStr s) ∧ o !! "teamName" = Some VNull)
         ∨ (o !! "teamName" = Some (VStr s) ∧ o !! "teamId" = Some VNull)).
Proof.
  assert (Zod.safeParse (registerInputSchema Sample.emailFormat)
            (Object (Sample.registration VUndefined (VStr "Rabbits")))
          = Zod.Success (Object (Sample.registration VNull (VStr "Rabbits"))))
    as Hparse by (vm_compute; reflexivity).
  split; [exact Hparse|].
  exact (register_output_team_fields Sample.emailFormat _ _ Hparse).
Defined.

(** A valid submission does reach the provider: the exchange happens and, as
    the provider accepts, the callback follows. *)
Example submitLogin_valid_exchanges :
  trace (submitLogin Sample.emailFormat (Some "goHome")
           (Object (Sample.credentials "alice@example.com" "hunter2"))
           Sample.visitor Sample.freshWorld).2
  = [EvSignIn "credentials"
       (<["redirect" := VBool false]>
          (Sample.credentials "alice@example.com" "hunter2"));
     EvCall "goHome"].
Proof. vm_compute. reflexivity. Qed.

(** With a session and an empty cache the render does start the lookup, and
    the user it returns is written to the cache. *)
Example useUser_member_fetches :
  let w' := (useUser () Sample.member Sample.freshWorld).2 in
  trace w' = [EvApiGet "/auth/me"]
  ∧ getQueryData (client w') ["user"] = JValue Sample.alice.
Proof. vm_compute. split; reflexivity. Qed.

(** A lookup that resolves to [undefined] leaves the ["user"] query in the
    error state, and under [queryConfig] the next render throws that error,
    with or without a session, and makes no request. *)
Example useUser_rethrows_stored_error :
  let w1 := (useUser () Scenario.dataless Sample.freshWorld).2 in
  state_error (userState w1) = Some (Error "data is undefined")
  ∧ useUser () Scenario.dataless w1 = (Rejected (Error "data is undefined"), w1)
  ∧ useUser () Sample.visitor w1 = (Rejected (Error "data is undefined"), w1).
Proof. vm_compute. repeat split; reflexivity. Qed.

(** An empty string in the other team field is neither a team nor an
    absence: both shapes of the union refuse it. *)
Example register_empty_other_rejected :
  Zod.safeParse (registerInputSchema Sample.emailFormat)
    (Object (Sample.registration (VStr "t1") (VStr ""))) = Zod.Failure.
Proof. vm_compute. reflexivity. Qed.

(** ** The two configurations *)

(** C8: [queryConfig] sets [throwOnError] to true, [refetchOnWindowFocus] to
    false, [retry] to false and [staleTime] to 1000 * 60 ms, that is 60
    seconds; the client of [createQueryClient] sets only [staleTime], to
    30 * 1000 ms, that is 30 seconds, so its retry and refetch-on-focus
    behaviour is the library's default. *)
Theorem two_query_client_configurations :
  (defaultOptions queryClient = queryConfig
   ∧ throwOnError (queries queryConfig) = Some true
   ∧ refetchOnWindowFocus (queries queryConfig) = Some false
   ∧ retry (queries queryConfig) = Some RetryFalse
   ∧ staleTime (queries queryConfig) = Some (60 * 1000)%Z)
  ∧ (let other := queries (defaultOptions (createQueryClient ())) in
     staleTime other = Some (30 * 1000)%Z
     ∧ throwOnError other = None
     ∧ refetchOnWindowFocus other = None
     ∧ retry other = None
     ∧ effectiveRetry other = Defaults.retry
     ∧ effectiveRefetchOnWindowFocus other = Defaults.refetchOnWindowFocus)
  ∧ staleTime (queries queryConfig)
    ≠ staleTime (queries (defaultOptions (createQueryClient ()))).
Proof. repeat split; done. Qed.

(** * Further properties *)

(** ** What the schemas accept and return *)

Lemma mergeObjectSync_cons_OK key v alwaysSet rest o :
  v ≠ VUndefined →
  Zod.mergeObjectSync rest = Zod.OK o →
  Zod.mergeObjectSync ((key, Zod.OK v, alwaysSet) :: rest)
  = Zod.OK (<[key := v]> o).
Proof.
  intros Hv Hrest. cbn [Zod.mergeObjectSync]. rewrite Hrest.
  cbn [Zod.isDirty]. by rewrite bool_decide_eq_false_2.
Qed.

Lemma minLength_VStr n v :
  minLength n v = true → ∃ s, v = VStr s ∧ (n ≤ String.length s)%nat.
Proof.
  destruct v as [| | | |s]; try done. intros H%bool_decide_eq_true. eauto.
Qed.

Lemma get_VStr (fields : gmap string Value) key s :
  get fields key = VStr s ↔ fields !! key = Some (VStr s).
Proof.
  unfold get. destruct (fields !! key) as [v|]; cbn; [|done].
  split; [by intros ->|by intros [= ->]].
Qed.

Section SchemaExtras.

Variable emailFormat : string → bool.

Lemma baseObject_OK fields :
  baseFieldsOk fields = true →
  Zod.z_object
    [ ("email", Zod.z_string emailFormat [Zod.Min 1 "Required"]);
      ("firstName", Zod.z_string emailFormat [Zod.Min 1 "Required"]);
      ("lastName", Zod.z_string emailFormat [Zod.Min 1 "Required"]);
      ("password", Zod.z_string emailFormat [Zod.Min 5 "Required"]) ]
    (Object fields)
  = Zod.OK (Object (<["email" := get fields "email"]>
                     (<["firstName" := get fields "firstName"]>
                        (<["lastName" := get fields "lastName"]>
                           (<["password" := get fields "password"]> ∅))))).
Proof.
  unfold baseFieldsOk, nonEmptyString.
  intros (((He & Hf)%andb_prop & Hl)%andb_prop & Hp)%andb_prop.
  unfold Zod.z_object. cbn [fmap list_fmap]. rewrite !z_string_min.
  rewrite He, Hf, Hl, Hp.
  apply minLength_VStr in He as (e & -> & _), Hf as (f & -> & _),
    Hl as (l & -> & _), Hp as (p & -> & _).
  erewrite mergeObjectSync_cons_OK; [reflexivity|done|].
  repeat (apply mergeObjectSync_cons_OK; [done|]). reflexivity.
Qed.

Lemma four_keys (a b c d : string) (va vb vc vd : Value) key :
  is_Some ((<[a := va]> (<[b := vb]> (<[c := vc]> (<[d := vd]> (∅ : gmap string Value))))) !! key) →
  key ∈ [a; b; c; d].
Proof.
  rewrite !lookup_insert_is_Some, lookup_empty, !elem_of_cons.
  intros [->|[_ [->|[_ [->|[_ [->|[_ []%is_Some_None]]]]]]]]; eauto.
Qed.

(** The registration schema, run on an object. *)
Lemma register_parse_exact fields :
  if baseFieldsOk fields && (teamIdOnly fields || teamNameOnly fields)
  then registerInputSchema emailFormat (Object fields)
       = Zod.OK (Object (registerOutput fields))
  else Zod.isValid (registerInputSchema emailFormat (Object fields)) = false.
Proof.
  pose proof (register_parse emailFormat fields) as Hparse.
  destruct (baseFieldsOk fields) eqn:Hbase; [|done]. cbn [andb] in *.
  destruct (teamIdOnly fields || teamNameOnly fields) eqn:Hteam; [|done].
  clear Hparse. unfold registerInputSchema, Zod.z_and, Zod.z_or, registerOutput.
  rewrite (baseObject_OK fields Hbase).
  pose proof (teamIdOption_spec emailFormat fields) as H1.
  pose proof (teamNameOption_spec emailFormat fields) as H2.
  destruct (teamIdOnly fields).
  - rewrite H1. cbn [Zod.isValid Zod.mergeValues Zod.isDirty orb].
    rewrite decide_True; [done|].
    eapply agree_outside; [apply four_keys|..];
      intros H; repeat (apply elem_of_cons in H as [[=]|H]); by apply elem_of_nil in H.
  - cbn [orb] in Hteam. rewrite Hteam in H2. rewrite H1, H2.
    cbn [Zod.isValid Zod.mergeValues Zod.isDirty orb].
    rewrite decide_True; [done|].
    eapply agree_outside; [apply four_keys|..];
      intros H; repeat (apply elem_of_cons in H as [[=]|H]); by apply elem_of_nil in H.
Qed.

(** What [registerOutput] holds under each of its six keys. *)
Lemma registerOutput_get fields :
  get (registerOutput fields) "email" = get fields "email"
  ∧ get (registerOutput fields) "firstName" = get fields "firstName"
  ∧ get (registerOutput fields) "lastName" = get fields "lastName"
  ∧ get (registerOutput fields) "password" = get fields "password"
  ∧ get (registerOutput fields) "teamId"
    = (if teamIdOnly fields then get fields "teamId" else VNull)
  ∧ get (registerOutput fields) "teamName"
    = (if teamIdOnly fields then VNull else get fields "teamName").
Proof.
  unfold registerOutput, get at 1 3 5 7 9 11.
  destruct (teamIdOnly fields);
    generalize (get fields "email"), (get fields "firstName"),
      (get fields "lastName"), (get fields "password"),
      (get fields "teamId"), (get fields "teamName");
    intros; vm_compute; done.
Qed.

Lemma z_string_email_OK n msg msg' s :
  minLength n (VStr s) = true → emailFormat s = true →
  Zod.z_string emailFormat [Zod.Min n msg; Zod.Email msg'] (VStr s)
  = Zod.OK (VStr s).
Proof.
  intros Hn He. cbn. rewrite He.
  apply bool_decide_eq_true in Hn. by rewrite bool_decide_eq_false_2 by lia.
Qed.

Lemma loginInputSchema_OK fields e p :
  fields !! "email" = Some (VStr e) → minLength 1 (VStr e) = true →
  emailFormat e = true →
  fields !! "password" = Some (VStr p) → minLength 5 (VStr p) = true →
  loginInputSchema emailFormat (Object fields)
  = Zod.OK (Object {[ "email" := VStr e; "password" := VStr p ]}).
Proof.
  intros He%get_VStr Hlen Hfmt Hp%get_VStr Hplen.
  unfold loginInputSchema, Zod.z_object. cbn [fmap list_fmap].
  rewrite He, Hp, z_string_min, Hplen, (z_string_email_OK _ _ _ _ Hlen Hfmt).
  erewrite mergeObjectSync_cons_OK; [reflexivity|done|].
  by apply mergeObjectSync_cons_OK.
Qed.

Lemma loginInputSchema_OK_inv fields out :
  loginInputSchema emailFormat (Object fields) = Zod.OK out →
  ∃ e p : string,
    fields !! "email" = Some (VStr e)
    ∧ minLength 1 (VStr e) = true ∧ emailFormat e = true
    ∧ fields !! "password" = Some (VStr p)
    ∧ minLength 5 (VStr p) = true
    ∧ out = Object {[ "email" := VStr e; "password" := VStr p ]}.
Proof.
  intros Hok.
  pose proof (loginInputSchema_isValid emailFormat fields) as Hvalid.
  rewrite Hok in Hvalid. cbn [Zod.isValid] in Hvalid.
  symmetry in Hvalid. apply andb_prop in Hvalid as [He Hp].
  destruct (get fields "email") as [| | | |e] eqn:Hemail; try done.
  apply andb_prop in He as [Hlen Hfmt].
  apply minLength_VStr in Hp as Hp'. destruct Hp' as (p & Hpass & Hplen).
  rewrite Hpass in Hp. apply get_VStr in Hemail, Hpass.
  rewrite (loginInputSchema_OK fields e p) in Hok by done.
  injection Hok as <-. by exists e, p.
Qed.

Lemma registerInputSchema_OK_inv fields out :
  registerInputSchema emailFormat (Object fields) = Zod.OK out →
  baseFieldsOk fields = true
  ∧ teamIdOnly fields || teamNameOnly fields = true
  ∧ out = Object (registerOutput fields).
Proof.
  intros Hok. pose proof (register_parse_exact fields) as Hparse.
  destruct (baseFieldsOk fields); [|by rewrite Hok in Hparse].
  destruct (teamIdOnly fields || teamNameOnly fields);
    [|by rewrite Hok in Hparse].
  rewrite Hok in Hparse. by injection Hparse as ->.
Qed.

(** The team verdicts on an accepted output are those on the input. *)
Lemma registerOutput_team fields :
  teamIdOnly fields || teamNameOnly fields = true →
  teamIdOnly (registerOutput fields) = teamIdOnly fields
  ∧ teamNameOnly (registerOutput fields) = teamNameOnly fields.
Proof.
  intros Hteam.
  destruct (registerOutput_get fields) as (_ & _ & _ & _ & Hid & Hname).
  unfold teamIdOnly, teamNameOnly in *. rewrite Hid, Hname. revert Hteam.
  unfold nonEmptyString, minLength.
  destruct (get fields "teamId"), (get fields "teamName"); cbn;
    repeat case_bool_decide; cbn; rewrite ?bool_decide_eq_true_2 by done; done.
Qed.

Lemma registerOutput_idem fields :
  teamIdOnly fields || teamNameOnly fields = true →
  registerOutput (registerOutput fields) = registerOutput fields.
Proof.
  intros Hteam.
  destruct (registerOutput_team fields Hteam) as [Hid _].
  destruct (registerOutput_get fields) as (He & Hf & Hl & Hp & Htid & Htn).
  unfold registerOutput at 1. rewrite Hid, He, Hf, Hl, Hp, Htid, Htn.
  unfold registerOutput. by destruct (teamIdOnly fields).
Qed.

(** X1: the login schema accepts exactly the objects whose [email] is a
    non-empty string passing the e-mail format test and whose [password] is a
    string of at least five code units; what it returns holds these two
    fields and nothing else, so keys outside the shape are dropped. *)
Theorem loginInputSchema_accepts_exactly (input out : Data) :
  Zod.safeParse (loginInputSchema emailFormat) input = Zod.Success out
  ↔ ∃ (fields : gmap string Value) (e p : string),
      input = Object fields
      ∧ fields !! "email" = Some (VStr e)
      ∧ (1 ≤ String.length e)%nat ∧ emailFormat e = true
      ∧ fields !! "password" = Some (VStr p)
      ∧ (5 ≤ String.length p)%nat
      ∧ out = Object {[ "email" := VStr e; "password" := VStr p ]}.
Proof.
  rewrite safeParse_Success. split.
  - destruct input as [v|fields]; [done|].
    intros (e & p & He & Hlen%bool_decide_eq_true & Hfmt & Hp
            & Hplen%bool_decide_eq_true & ->)%loginInputSchema_OK_inv.
    by exists fields, e, p.
  - intros (fields & e & p & -> & He & Hlen & Hfmt & Hp & Hplen & ->).
    apply loginInputSchema_OK; try done; by apply bool_decide_eq_true.
Qed.

(** X2: the registration schema accepts exactly the objects whose four base
    fields are in order and in which exactly one team field is a non-empty
    string while the other is missing, [undefined] or [null]; what it returns
    is [registerOutput] of the input. *)
Theorem registerInputSchema_accepts_exactly (input out : Data) :
  Zod.safeParse (registerInputSchema emailFormat) input = Zod.Success out
  ↔ ∃ fields : gmap string Value,
      input = Object fields
      ∧ baseFieldsOk fields = true
      ∧ (teamIdOnly fields = true ∨ teamNameOnly fields = true)
      ∧ out = Object (registerOutput fields).
Proof.
  rewrite safeParse_Success. split.
  - destruct input as [v|fields]; [done|].
    intros (Hbase & Hteam%orb_prop & ->)%registerInputSchema_OK_inv.
    by exists fields.
  - intros (fields & -> & Hbase & Hteam & ->).
    pose proof (register_parse_exact fields) as Hparse.
    rewrite Hbase in Hparse.
    destruct Hteam as [H|H]; rewrite H, ?orb_true_r in Hparse; exact Hparse.
Qed.

(** X3: an accepted registration is returned with exactly six keys, so
    whatever else the input carried is dropped, and with its four base
    fields as they were given. *)
Theorem register_output_strips_unknown_keys
    (fields : gmap string Value) (out : Data) :
  Zod.safeParse (registerInputSchema emailFormat) (Object fields)
    = Zod.Success out →
  ∃ o : gmap string Value,
    out = Object o
    ∧ dom o = list_to_set
                ["email"; "firstName"; "lastName"; "password"; "teamId"; "teamName"]
    ∧ o !! "email" = fields !! "email"
    ∧ o !! "firstName" = fields !! "firstName"
    ∧ o !! "lastName" = fields !! "lastName"
    ∧ o !! "password" = fields !! "password".
Proof.
  intros (Hbase & _ & ->)%safeParse_Success%registerInputSchema_OK_inv.
  eexists. split; [done|]. split.
  - unfold registerOutput.
    destruct (teamIdOnly fields);
      rewrite dom_union_L, !dom_insert_L, !dom_empty_L; cbn;
      apply set_eq; intros k; rewrite !elem_of_union, !elem_of_singleton,
        elem_of_empty; tauto.
  - unfold baseFieldsOk, nonEmptyString in Hbase.
    apply andb_prop in Hbase as [[[He Hf]%andb_prop Hl]%andb_prop Hp].
    apply minLength_VStr in He as (e & He & _), Hf as (f & Hf & _),
      Hl as (l & Hl & _), Hp as (p & Hp & _).
    destruct (registerOutput_get fields) as (Ge & Gf & Gl & Gp & _).
    rewrite He in Ge. rewrite Hf in Gf. rewrite Hl in Gl. rewrite Hp in Gp.
    apply get_VStr in He, Hf, Hl, Hp, Ge, Gf, Gl, Gp.
    by rewrite He, Hf, Hl, Hp, Ge, Gf, Gl, Gp.
Qed.

(** X4: the registration schema is idempotent: what it returns it accepts,
    and returns unchanged. *)
Theorem registerInputSchema_idempotent (input out : Data) :
  Zod.safeParse (registerInputSchema emailFormat) input = Zod.Success out →
  Zod.safeParse (registerInputSchema emailFormat) out = Zod.Success out.
Proof.
  rewrite !safeParse_Success. destruct input as [v|fields]; [done|].
  intros (Hbase & Hteam & ->)%registerInputSchema_OK_inv.
  pose proof (register_parse_exact (registerOutput fields)) as Hparse.
  destruct (registerOutput_team fields Hteam) as [Hid Hname].
  destruct (registerOutput_get fields) as (He & Hf & Hl & Hp & _).
  rewrite Hid, Hname, Hteam, andb_true_r in Hparse.
  unfold baseFieldsOk in Hparse at 1. rewrite He, Hf, Hl, Hp in Hparse.
  fold (baseFieldsOk fields) in Hparse. rewrite Hbase in Hparse.
  by rewrite Hparse, registerOutput_idem.
Qed.

(** X5: the login schema is idempotent as well. *)
Theorem loginInputSchema_idempotent (input out : Data) :
  Zod.safeParse (loginInputSchema emailFormat) input = Zod.Success out →
  Zod.safeParse (loginInputSchema emailFormat) out = Zod.Success out.
Proof.
  rewrite !safeParse_Success. destruct input as [v|fields]; [done|].
  intros (e & p & _ & Hlen & Hfmt & _ & Hplen & ->)%loginInputSchema_OK_inv.
  by apply loginInputSchema_OK.
Qed.

(** X6: the registration schema asks of the email only that it be a
    non-empty string: an address that fails the e-mail format test passes
    registration, and the very same object is refused by the login schema. *)
Theorem register_accepts_what_login_refuses
    (fields : gmap string Value) (e : string) :
  fields !! "email" = Some (VStr e) →
  emailFormat e = false →
  baseFieldsOk fields = true →
  teamIdOnly fields = true ∨ teamNameOnly fields = true →
  Zod.safeParse (registerInputSchema emailFormat) (Object fields)
    = Zod.Success (Object (registerOutput fields))
  ∧ Zod.safeParse (loginInputSchema emailFormat) (Object fields) = Zod.Failure.
Proof.
  intros He%get_VStr Hfmt Hbase Hteam. split.
  - apply safeParse_Success.
    pose proof (register_parse_exact fields) as Hparse.
    rewrite Hbase in Hparse.
    destruct Hteam as [H|H]; rewrite H, ?orb_true_r in Hparse; exact Hparse.
  - apply safeParse_Failure. rewrite loginInputSchema_isValid, He, Hfmt.
    by rewrite andb_false_r.
Qed.

End SchemaExtras.

(** ** The current-user lookup and accessor, run *)

Lemma fresh_not_stale st stale_time current :
  state_data st ≠ JUndefined →
  (current < state_dataUpdatedAt st + stale_time)%Z →
  isStaleByTime st stale_time current = false.
Proof.
  intros Hdata Hfresh. unfold isStaleByTime.
  destruct (state_data st); [done|..]; apply bool_decide_eq_false; lia.
Qed.

Lemma settledState_defined old current v :
  v ≠ JUndefined →
  settledState old current (Resolved v)
  = {| state_data := v; state_dataUpdatedAt := current; state_error := None |}.
Proof. by destruct v. Qed.

Lemma whoAmI_rejected env e :
  api_get env "/auth/me" = Rejected e → whoAmI env = JNull.
Proof. unfold whoAmI. by intros ->. Qed.

(** Over data that is not stale nothing makes the observer fetch, at mount
    or in a re-render. *)
Lemma startsLookup_fresh env w :
  state_data (userState w) ≠ JUndefined →
  isStaleByTime (userState w)
    (effectiveStaleTime (queries (defaultOptions (client w)))) (now env) = false →
  startsLookup env w = false.
Proof.
  intros Hdata Hfresh.
  unfold startsLookup, shouldFetchOnMount, shouldLoadOnMount,
    shouldFetchOptionally, noData.
  rewrite Hfresh.
  destruct (state_data (userState w)); [done|..];
    destruct (observer env); by rewrite ?andb_false_r.
Qed.

(** With a session, over a query that holds no error and is stale, the
    observer fetches at mount, and in a re-render when the query was
    disabled before. *)
Lemma startsLookup_stale env w :
  toBoolean (useSession env) = true →
  observer env ≠ Some true →
  state_error (userState w) = None →
  isStaleByTime (userState w)
    (effectiveStaleTime (queries (defaultOptions (client w)))) (now env) = true →
  startsLookup env w = true.
Proof.
  intros Hsession Hobserver Hclean Hstale.
  unfold startsLookup, shouldFetchOnMount, shouldLoadOnMount,
    shouldFetchOptionally, userQueryOptions, isError.
  cbn [enabled]. rewrite Hsession, Hclean, Hstale.
  cbn [default from_option id andb negb].
  destruct (observer env) as [[]|]; cbn [negb]; rewrite ?orb_true_r;
    [done|done|].
  by destruct (noData (userState w)).
Qed.

(** X7: the lookup makes exactly one [GET /auth/me] and leaves the query
    client alone; it resolves to the [data] of a response object, and to
    [null] when the request resolves to [null] or [undefined] (reading
    [.data] throws inside the [try]). *)
Theorem queryFn_one_request (env : Env) (w : World) :
  ∃ v,
    queryFn (getUserQueryOptions ()) env w
    = (Resolved v, {| client := client w; trace := trace w ++ [EvApiGet "/auth/me"] |})
    ∧ (∀ r, api_get env "/auth/me" = Resolved (JValue r) → v = response_data r)
    ∧ (∀ x, api_get env "/auth/me" = Resolved x → toBoolean x = false → v = JNull).
Proof.
  exists (whoAmI env). split; [apply run_queryFn_whoAmI|].
  unfold whoAmI. split.
  - by intros r ->.
  - intros x -> Hx. by destruct x.
Qed.

(** X8: a render of [useUser] makes at most one request, the
    [GET /auth/me], and nothing else happens: a render that returns makes
    the request exactly when it reports that it is fetching, and a render
    that throws makes none.  This holds under any retry policy, because the
    lookup never fails. *)
Theorem useUser_at_most_one_request (env : Env) (w : World) :
  ∃ out w',
    useUser () env w = (out, w')
    ∧ match out with
      | Resolved r =>
          if fetching r
          then trace w' = trace w ++ [EvApiGet "/auth/me"]
          else trace w' = trace w
      | Rejected _ => trace w' = trace w
      end
    ∧ defaultOptions (client w') = defaultOptions (client w).
Proof.
  rewrite run_useUser_full. destruct (thrown env w).
  - by eexists _, _.
  - eexists _, _. split; [done|]. cbn [fetching].
    by destruct (startsLookup env w).
Qed.

(** X9: a failed lookup is remembered as "no user", not as an error: when
    a render returns and reports fetching and the request fails, the cache
    then holds [null] under ["user"], stamped with the current time and with
    no error, and a later render inside the staleness window returns, makes
    no request and changes nothing. *)
Theorem failed_lookup_cached_as_null
    (env env' : Env) (w w1 : World) (r : QueryResult) (e : Exn) :
  useUser () env w = (Resolved r, w1) →
  fetching r = true →
  api_get env "/auth/me" = Rejected e →
  (now env' < now env + effectiveStaleTime (queries (defaultOptions (client w))))%Z →
  queryCache (client w1) !! ["user"]
  = Some {| state_data := JNull; state_dataUpdatedAt := now env;
            state_error := None |}
  ∧ ∃ r', useUser () env' w1 = (Resolved r', w1)
          ∧ fetching r' = false
          ∧ data r' = sessionUser (useSession env') ?? JNull.
Proof.
  rewrite run_useUser_full. intros Hrun Hfetching Hfail Hsoon.
  destruct (thrown env w); [done|]. injection Hrun as <- <-.
  cbn [fetching] in Hfetching. rewrite Hfetching.
  assert (queryCache (client (looked env (built ["user"] w))) !! ["user"]
          = Some {| state_data := JNull; state_dataUpdatedAt := now env;
                    state_error := None |}) as Hentry.
  { by rewrite looked_built_cache, lookup_insert_eq, (whoAmI_rejected _ _ Hfail). }
  split; [done|].
  set (w1 := looked env (built ["user"] w)) in *.
  assert (defaultOptions (client w1) = defaultOptions (client w)) as Hopts by done.
  pose proof (userState_lookup _ _ Hentry) as Hstate.
  rewrite run_useUser_full, (thrown_None env' w1) by (right; by rewrite Hstate).
  rewrite (startsLookup_fresh env' w1); rewrite ?Hstate, ?Hopts; [|done|].
  - rewrite (built_id ["user"] w1 (mk_is_Some _ _ Hentry)).
    eexists. split; [done|]. split; [done|]. cbn [data state_data].
    by destruct (sessionUser _).
  - by apply fresh_not_stale.
Qed.

(** X10: a render over fresh data changes nothing: when the ["user"] query
    holds data that is younger than the client's staleness window, and no
    error, the render returns, makes no request and leaves the world exactly
    as it was, session or no session, first render or re-render. *)
Theorem fresh_render_changes_nothing (env : Env) (w : World) (st : QueryState) :
  queryCache (client w) !! ["user"] = Some st →
  state_data st ≠ JUndefined →
  state_error st = None →
  (now env < state_dataUpdatedAt st
             + effectiveStaleTime (queries (defaultOptions (client w))))%Z →
  useUser () env w
  = (Resolved {| data := sessionUser (useSession env) ?? state_data st ?? JNull;
                 error := None;
                 fetching := false |}, w).
Proof.
  intros Hst Hdata Hclean Hfresh.
  pose proof (userState_lookup _ _ Hst) as Hstate.
  rewrite run_useUser_full, (thrown_None env w) by (right; by rewrite Hstate).
  rewrite (startsLookup_fresh env w); rewrite ?Hstate; [|done|].
  - rewrite (built_id ["user"] w (mk_is_Some _ _ Hst)).
    unfold optimisticResult. cbn [error andb]. by rewrite Hclean.
  - by apply fresh_not_stale.
Qed.

(** X11: with a session, in the first render of a mounting component (or
    in a re-render after one in which the query was disabled), over a
    ["user"] query that holds no error and is missing or stale, the render
    returns and makes exactly one request; it still returns what the cache
    held before, and the answer, unless it is [undefined], is in the cache
    afterwards, stamped with the current time and with no error. *)
Theorem stale_render_refreshes_cache (env : Env) (w : World) :
  toBoolean (useSession env) = true →
  observer env ≠ Some true →
  state_error (userState w) = None →
  isStaleByTime (userState w)
    (effectiveStaleTime (queries (defaultOptions (client w)))) (now env) = true →
  ∃ r w',
    useUser () env w = (Resolved r, w')
    ∧ fetching r = true
    ∧ data r = sessionUser (useSession env) ?? getQueryData (client w) ["user"] ?? JNull
    ∧ trace w' = trace w ++ [EvApiGet "/auth/me"]
    ∧ (whoAmI env ≠ JUndefined →
       queryCache (client w') !! ["user"]
       = Some {| state_data := whoAmI env; state_dataUpdatedAt := now env;
                 state_error := None |}).
Proof.
  intros Hsession Hobserver Hclean Hstale.
  rewrite run_useUser_full, (thrown_None env w) by by right.
  rewrite (startsLookup_stale env w) by done.
  eexists _, _. split; [done|]. split; [done|]. split.
  { cbn [data]. by rewrite userState_data. }
  split; [done|]. intros Hdefined.
  by rewrite looked_built_cache, lookup_insert_eq, settledState_defined.
Qed.

(** X12: whenever the accessor returns, its data is a user or [null], never
    [undefined]; and it does return whenever the ["user"] query holds no
    error. *)
Theorem useUser_data_never_undefined (env : Env) (w : World) :
  (∀ r w', useUser () env w = (Resolved r, w') → data r ≠ JUndefined)
  ∧ (state_error (userState w) = None →
     ∃ r w', useUser () env w = (Resolved r, w')).
Proof.
  rewrite run_useUser_full. split.
  - intros r w' Hrun. destruct (thrown env w); [done|].
    injection Hrun as <- _. cbn [data].
    by destruct (sessionUser (useSession env)), (state_data (userState w)).
  - intros Hclean. rewrite (thrown_None env w) by by right. by eexists _, _.
Qed.

(** X13: a session that carries no user does not hide the cache: whenever
    the accessor returns, its data is the user cached under ["user"], or
    [null]; and it does return whenever the ["user"] query holds no error. *)
Theorem session_without_user_falls_back (env : Env) (w : World) (s : Session) :
  useSession env = JValue s →
  toBoolean (session_user s) = false →
  (∀ r w', useUser () env w = (Resolved r, w') →
           data r = getQueryData (client w) ["user"] ?? JNull)
  ∧ (state_error (userState w) = None →
     ∃ r w', useUser () env w = (Resolved r, w')).
Proof.
  intros Hs Hnone. rewrite run_useUser_full. split.
  - intros r w' Hrun. destruct (thrown env w); [done|].
    injection Hrun as <- _. cbn [data].
    rewrite Hs, userState_data. cbn [sessionUser].
    by destruct (session_user s).
  - intros Hclean. rewrite (thrown_None env w) by by right. by eexists _, _.
Qed.

(** X14: a render touches the ["user"] query only: every other entry of the
    cache and the client's default options are what they were. *)
Theorem useUser_frames_other_queries (env : Env) (w : World) (key : QueryKey) :
  key ≠ ["user"] →
  queryCache (client (useUser () env w).2) !! key = queryCache (client w) !! key
  ∧ defaultOptions (client (useUser () env w).2) = defaultOptions (client w).
Proof.
  intros Hkey. rewrite run_useUser_full.
  destruct (thrown env w); cbn [snd].
  - unfold built. cbn. by rewrite lookup_insert_ne.
  - destruct (startsLookup env w).
    + rewrite looked_built_cache. by rewrite lookup_insert_ne.
    + unfold built. cbn. by rewrite lookup_insert_ne.
Qed.

(** X21: the staleness window is the client's: with a session, in the first
    render of a mounting component (or in a re-render after one in which the
    query was disabled), over data of time [t] held without error, a render
    under [queryConfig] starts the lookup exactly when 60000 ms have passed
    since [t]; under the options of [createQueryClient], exactly when 30000
    ms have. *)
Theorem staleness_windows (env : Env) (w : World) (st : QueryState) :
  toBoolean (useSession env) = true →
  observer env ≠ Some true →
  queryCache (client w) !! ["user"] = Some st →
  state_data st ≠ JUndefined →
  state_error st = None →
  (defaultOptions (client w) = queryConfig →
   (trace (useUser () env w).2 = trace w ++ [EvApiGet "/auth/me"]
    ↔ (state_dataUpdatedAt st + 60000 ≤ now env)%Z)
   ∧ (trace (useUser () env w).2 = trace w
      ↔ (now env < state_dataUpdatedAt st + 60000)%Z))
  ∧ (defaultOptions (client w) = defaultOptions (createQueryClient ()) →
     (trace (useUser () env w).2 = trace w ++ [EvApiGet "/auth/me"]
      ↔ (state_dataUpdatedAt st + 30000 ≤ now env)%Z)
     ∧ (trace (useUser () env w).2 = trace w
        ↔ (now env < state_dataUpdatedAt st + 30000)%Z)).
Proof.
  intros Hsession Hobserver Hst Hdata Hclean.
  pose proof (userState_lookup _ _ Hst) as Hstate.
  assert (∀ window,
    effectiveStaleTime (queries (defaultOptions (client w))) = window →
    (trace (useUser () env w).2 = trace w ++ [EvApiGet "/auth/me"]
     ↔ (state_dataUpdatedAt st + window ≤ now env)%Z)
    ∧ (trace (useUser () env w).2 = trace w
       ↔ (now env < state_dataUpdatedAt st + window)%Z)) as Hwindow.
  { intros window Hwin.
    assert (∀ l : list Event, l ++ [EvApiGet "/auth/me"] ≠ l) as Hne.
    { intros l Heq. apply (f_equal length) in Heq.
      rewrite length_app in Heq. cbn in Heq. lia. }
    rewrite run_useUser_full, (thrown_None env w) by (right; by rewrite Hstate).
    cbn [snd].
    destruct (decide (now env < state_dataUpdatedAt st + window)%Z) as [Hfresh|Hstale].
    - rewrite (startsLookup_fresh env w); rewrite ?Hstate, ?Hwin;
        [|done|by apply fresh_not_stale].
      cbn [trace built]. split; split; intros H'; try done; try lia.
      by symmetry in H'; apply Hne in H'.
    - rewrite (startsLookup_stale env w); rewrite ?Hstate, ?Hwin; try done.
      + cbn [trace looked built]. split; split; intros H'; try done; try lia.
        by apply Hne in H'.
      + unfold isStaleByTime. destruct (state_data st); [done|..];
          apply bool_decide_eq_true; lia. }
  split; intros Hopts; apply Hwindow; by rewrite Hopts.
Qed.

(** ** Logout and login, further *)

(** X15: a successful logout drops the whole family of queries whose key
    starts with ["user"] (the filter of [removeQueries] is not exact) and
    keeps every other entry, and the client's default options, as they
    were. *)
Theorem logout_removes_user_family
    (env : Env) (w : World) (callback : option Callback) (v : Value)
    (key : QueryKey) :
  signOut env {["redirect" := VBool false]} = Resolved v →
  let w' := (useMutation (useLogout callback) () env w).2 in
  queryCache (client w') !! key
  = (if decide (["user"] `prefix_of` key) then None
     else queryCache (client w) !! key)
  ∧ defaultOptions (client w') = defaultOptions (client w).
Proof.
  intros Hout w'. unfold w'. rewrite run_useLogout, Hout. cbn [snd client queryCache].
  split; [|done]. case_decide as Hprefix.
  - apply map_lookup_filter_None. right. intros st _ Hnot. by apply Hnot.
  - by apply removeQueries_other.
Qed.

(** X16: after a successful logout, a render without a session returns
    [null] and makes no request, whatever the cache held before. *)
Theorem logout_then_anonymous_render
    (env env' : Env) (w : World) (callback : option Callback) (v : Value) :
  signOut env {["redirect" := VBool false]} = Resolved v →
  toBoolean (useSession env') = false →
  let w1 := (useMutation (useLogout callback) () env w).2 in
  ∃ r w2,
    useUser () env' w1 = (Resolved r, w2)
    ∧ data r = JNull
    ∧ fetching r = false
    ∧ trace w2 = trace w1.
Proof.
  intros Hout Hnone w1.
  assert (queryCache (client w1) !! ["user"] = None) as Hgone.
  { unfold w1. rewrite run_useLogout, Hout. apply removeQueries_lookup. }
  assert (userState w1 = initialState) as Hstate.
  { unfold userState. by rewrite Hgone. }
  rewrite run_useUser_full, (thrown_None env' w1) by (right; by rewrite Hstate).
  rewrite (startsLookup_disabled env' w1 Hnone).
  eexists _, _. split; [done|]. cbn [data fetching]. rewrite Hstate.
  by destruct (useSession env').
Qed.

(** X17: when the credential exchange itself is rejected (the provider was
    not reached), the login mutation is rejected with the same error, the
    only event is the exchange, and the success callback is not called. *)
Theorem login_transport_failure
    (env : Env) (w : World) (callback : option Callback)
    (credentials : gmap string Value) (e : Exn) :
  signIn env "credentials" (<["redirect" := VBool false]> credentials)
    = Rejected e →
  useMutation (useLogin callback) credentials env w
  = (Rejected e,
     {| client := client w;
        trace :=
          trace w
            ++ [EvSignIn "credentials" (<["redirect" := VBool false]> credentials)] |}).
Proof.
  intros Hin. pose proof (run_useLogin callback credentials env w) as Hrun.
  cbn zeta in Hrun. by rewrite Hin in Hrun.
Qed.

(** X18: a login, whatever its outcome, leaves the query client as it was:
    nothing cached under ["user"] is removed or refreshed by it. *)
Theorem login_leaves_query_client
    (env : Env) (w : World) (callback : option Callback)
    (credentials : gmap string Value) :
  client (useMutation (useLogin callback) credentials env w).2 = client w.
Proof.
  pose proof (run_useLogin callback credentials env w) as Hrun.
  cbn zeta in Hrun. rewrite Hrun.
  destruct (signIn env "credentials" _) as [result|e]; [|done].
  by destruct (reportedError result).
Qed.

(** X19: the first thing a login does is the credential exchange with the
    provider ["credentials"]; it is made with [redirect] set to [false], even
    when the credentials carry a [redirect] of their own, and with every
    other field as given. *)
Theorem login_never_redirects
    (env : Env) (w : World) (callback : option Callback)
    (credentials : gmap string Value) :
  ∃ options rest,
    trace (useMutation (useLogin callback) credentials env w).2
    = trace w ++ EvSignIn "credentials" options :: rest
    ∧ options !! "redirect" = Some (VBool false)
    ∧ ∀ key, key ≠ "redirect" → options !! key = credentials !! key.
Proof.
  pose proof (run_useLogin callback credentials env w) as Hrun.
  cbn zeta in Hrun. rewrite Hrun.
  exists (<["redirect" := VBool false]> credentials).
  destruct (signIn env "credentials" _) as [result|e];
    [destruct (reportedError result)|];
    eexists; (split; [reflexivity|]);
    (split; [apply lookup_insert_eq|intros key Hkey; by apply lookup_insert_ne]).
Qed.

(** X20: only a non-empty [error] makes a login fail: an answer whose
    [error] is the empty string, or is not set, and an answer that is
    [undefined], all count as success, and the callback is called. *)
Theorem login_blank_error_is_success
    (env : Env) (w : World) (f : Callback)
    (credentials : gmap string Value) (result : option SignInResponse) :
  signIn env "credentials" (<["redirect" := VBool false]> credentials)
    = Resolved result →
  (result = None
   ∨ ∃ r, result = Some r ∧ (signin_error r = None ∨ signin_error r = Some "")) →
  useMutation (useLogin (Some f)) credentials env w
  = (Resolved result,
     {| client := client w;
        trace :=
          trace w
            ++ [EvSignIn "credentials" (<["redirect" := VBool false]> credentials);
                EvCall f] |}).
Proof.
  intros Hin Hblank. pose proof (run_useLogin (Some f) credentials env w) as Hrun.
  cbn zeta in Hrun. rewrite Hin in Hrun.
  assert (reportedError result = None) as Hnone.
  { destruct Hblank as [->|(r & -> & [Hr|Hr])]; [done|..];
      unfold reportedError; by rewrite Hr. }
  by rewrite Hnone in Hrun.
Qed.

(** ** The further properties on sample inputs *)

Lemma register_output_strips_unknown_keys_witness :
  ∃ o : gmap string Value,
    Object (registerOutput
              (<["role" := VStr "admin"]> (Sample.registration (VStr "t1") VUndefined)))
    = Object o
    ∧ dom o = list_to_set
                ["email"; "firstName"; "lastName"; "password"; "teamId"; "teamName"]
    ∧ o !! "email" = Some (VStr "alice@example.com")
    ∧ o !! "firstName" = Some (VStr "Alice")
    ∧ o !! "lastName" = Some (VStr "Liddell")
    ∧ o !! "password" = Some (VStr "hunter2").
Proof.
  assert (Zod.safeParse (registerInputSchema Sample.emailFormat)
            (Object (<["role" := VStr "admin"]>
                       (Sample.registration (VStr "t1") VUndefined)))
          = Zod.Success
              (Object (registerOutput
                         (<["role" := VStr "admin"]>
                            (Sample.registration (VStr "t1") VUndefined)))))
    as Hparse by (vm_compute; reflexivity).
  pose proof (register_output_strips_unknown_keys Sample.emailFormat _ _ Hparse)
    as Hout.
  vm_compute in Hout. vm_compute. exact Hout.
Defined.

Lemma registerInputSchema_idempotent_witness :
  Zod.safeParse (registerInputSchema Sample.emailFormat)
    (Object (Sample.registration (VStr "t1") VNull))
  = Zod.Success (Object (Sample.registration (VStr "t1") VNull)).
Proof.
  apply (registerInputSchema_idempotent Sample.emailFormat
           (Object (Sample.registration (VStr "t1") VUndefined))).
  vm_compute. reflexivity.
Defined.

Lemma loginInputSchema_idempotent_witness :
  Zod.safeParse (loginInputSchema Sample.emailFormat)
    (Object (Sample.credentials "alice@example.com" "hunter2"))
  = Zod.Success (Object (Sample.credentials "alice@example.com" "hunter2")).
Proof.
  apply (loginInputSchema_idempotent Sample.emailFormat
           (Object (<["remember" := VBool true]>
                      (Sample.credentials "alice@example.com" "hunter2")))).
  vm_compute. reflexivity.
Defined.

Lemma register_accepts_what_login_refuses_witness :
  Zod.safeParse (registerInputSchema Sample.emailFormat)
    (Object Scenario.oddRegistration)
  = Zod.Success (Object (registerOutput Scenario.oddRegistration))
  ∧ Zod.safeParse (loginInputSchema Sample.emailFormat)
      (Object Scenario.oddRegistration) = Zod.Failure.
Proof.
  apply (register_accepts_what_login_refuses Sample.emailFormat
           Scenario.oddRegistration "alice");
    [reflexivity|reflexivity|reflexivity|left; reflexivity].
Defined.

Lemma failed_lookup_cached_as_null_witness :
  let w1 := (useUser () Sample.offline Sample.freshWorld).2 in
  queryCache (client w1) !! ["user"]
  = Some {| state_data := JNull; state_dataUpdatedAt := 1000; state_error := None |}
  ∧ ∃ r', useUser () Sample.offline w1 = (Resolved r', w1)
          ∧ fetching r' = false
          ∧ data r' = JValue Sample.alice.
Proof.
  intros w1.
  assert (useUser () Sample.offline Sample.freshWorld
          = (Resolved {| data := JValue Sample.alice; error := None;
                         fetching := true |}, w1)) as Hrun
    by (vm_compute; reflexivity).
  exact (failed_lookup_cached_as_null Sample.offline Sample.offline
           Sample.freshWorld w1 _ (NetworkError "Failed to fetch")
           Hrun eq_refl eq_refl eq_refl).
Defined.

Lemma fresh_render_changes_nothing_witness :
  useUser () Sample.member (Sample.worldHolding Sample.bob)
  = (Resolved {| data := JValue Sample.alice; error := None; fetching := false |},
     Sample.worldHolding Sample.bob).
Proof.
  apply (fresh_render_changes_nothing Sample.member
           (Sample.worldHolding Sample.bob) (Scenario.entry Sample.bob));
    [reflexivity|discriminate|reflexivity|reflexivity].
Defined.

Lemma stale_render_refreshes_cache_witness :
  ∃ r w',
    useUser () Sample.member Sample.freshWorld = (Resolved r, w')
    ∧ fetching r = true
    ∧ data r = JValue Sample.alice
    ∧ trace w' = [EvApiGet "/auth/me"]
    ∧ (JValue Sample.alice ≠ JUndefined →
       queryCache (client w') !! ["user"]
       = Some {| state_data := JValue Sample.alice; state_dataUpdatedAt := 1000;
                 state_error := None |}).
Proof.
  apply (stale_render_refreshes_cache Sample.member Sample.freshWorld);
    [reflexivity|discriminate|reflexivity|reflexivity].
Defined.

Lemma session_without_user_falls_back_witness :
  ∃ r w',
    useUser () Scenario.userless (Sample.worldHolding Sample.bob) = (Resolved r, w')
    ∧ data r = JValue Sample.bob.
Proof.
  destruct (session_without_user_falls_back Scenario.userless
              (Sample.worldHolding Sample.bob) _ eq_refl eq_refl)
    as [Hdata Hreturns].
  destruct (Hreturns eq_refl) as (r & w' & Hrun).
  exists r, w'. split; [exact Hrun|exact (Hdata r w' Hrun)].
Defined.

Lemma useUser_frames_other_queries_witness :
  queryCache (client (useUser () Scenario.lateMember Scenario.busyWorld).2) !! ["posts"]
  = Some (Scenario.entry Sample.bob)
  ∧ defaultOptions (client (useUser () Scenario.lateMember Scenario.busyWorld).2)
    = queryConfig.
Proof.
  apply (useUser_frames_other_queries Scenario.lateMember Scenario.busyWorld ["posts"]).
  discriminate.
Defined.

Lemma logout_removes_user_family_witness :
  let w' := (useMutation (useLogout None) () Sample.member Scenario.busyWorld).2 in
  (queryCache (client w') !! ["user"; "profile"] = None
   ∧ defaultOptions (client w') = queryConfig)
  ∧ (queryCache (client w') !! ["posts"] = Some (Scenario.entry Sample.bob)
     ∧ defaultOptions (client w') = queryConfig).
Proof.
  split.
  - exact (logout_removes_user_family Sample.member Scenario.busyWorld None
             VUndefined ["user"; "profile"] eq_refl).
  - exact (logout_removes_user_family Sample.member Scenario.busyWorld None
             VUndefined ["posts"] eq_refl).
Defined.

Lemma logout_then_anonymous_render_witness :
  let w1 := (useMutation (useLogout None) () Sample.member
               (Sample.worldHolding Sample.alice)).2 in
  ∃ r w2,
    useUser () Sample.visitor w1 = (Resolved r, w2)
    ∧ data r = JNull ∧ fetching r = false ∧ trace w2 = trace w1.
Proof.
  exact (logout_then_anonymous_render Sample.member Sample.visitor
           (Sample.worldHolding Sample.alice) None VUndefined eq_refl eq_refl).
Defined.

Lemma login_transport_failure_witness :
  useMutation (useLogin (Some "goHome"))
    (Sample.credentials "alice@example.com" "hunter2")
    Sample.offline Sample.freshWorld
  = (Rejected (NetworkError "Failed to fetch"),
     {| client := queryClient;
        trace :=
          [EvSignIn "credentials"
             (<["redirect" := VBool false]>
                (Sample.credentials "alice@example.com" "hunter2"))] |}).
Proof.
  exact (login_transport_failure Sample.offline Sample.freshWorld (Some "goHome")
           (Sample.credentials "alice@example.com" "hunter2")
           (NetworkError "Failed to fetch") eq_refl).
Defined.

Lemma login_blank_error_is_success_witness :
  useMutation (useLogin (Some "goHome"))
    (Sample.credentials "alice@example.com" "hunter2")
    Scenario.blank Sample.freshWorld
  = (Resolved (Some Scenario.blankError),
     {| client := queryClient;
        trace :=
          [EvSignIn "credentials"
             (<["redirect" := VBool false]>
                (Sample.credentials "alice@example.com" "hunter2"));
           EvCall "goHome"] |}).
Proof.
  apply (login_blank_error_is_success Scenario.blank Sample.freshWorld "goHome"
           (Sample.credentials "alice@example.com" "hunter2")
           (Some Scenario.blankError) eq_refl).
  right. exists Scenario.blankError. split; [reflexivity|right; reflexivity].
Defined.

Lemma staleness_windows_witness :
  (trace (useUser () Scenario.lateMember (Sample.worldHolding Sample.alice)).2
   = [EvApiGet "/auth/me"])
  ∧ trace (useUser () Sample.member (Sample.worldHolding Sample.alice)).2 = [].
Proof.
  split.
  - apply (proj1 (staleness_windows Scenario.lateMember
                    (Sample.worldHolding Sample.alice) (Scenario.entry Sample.alice)
                    eq_refl ltac:(discriminate) eq_refl ltac:(discriminate) eq_refl)
             eq_refl).
    cbn. lia.
  - apply (proj1 (staleness_windows Sample.member
                    (Sample.worldHolding Sample.alice) (Scenario.entry Sample.alice)
                    eq_refl ltac:(discriminate) eq_refl ltac:(discriminate) eq_refl)
             eq_refl).
    cbn. lia.
Defined.
